(** * pubmed-paper-fetcher: a shallow embedding of [main.py]

    The program asks the PubMed search service for the identifiers that
    match a query, asks the summary service for their metadata, flags the
    authors whose affiliation does not look academic and prints the
    records or writes them to a CSV file.

    Python values that come out of [response.json()] are modelled by the
    type [json]; Python's [None] is [JNull].  A dictionary is an
    association list in insertion order whose first binding of a key is
    the one that counts.  A [str] is modelled by the string of the bytes
    of its UTF-8 encoding (a lone surrogate encoded like any other code
    point), so that equality, concatenation and containment of [str]s
    are those of the byte strings; where the program looks at single
    characters (iteration, the regular expression) the model reads code
    points off the bytes.  JSON numbers are integers.  Every
    dynamic check that Python performs (attribute lookup, iteration,
    joining, indexing) is written out and raises the exception Python
    raises. *)

From Stdlib Require Import String Ascii List ZArith Bool Lia.
Import ListNotations.
Set Warnings "-register-all".
Open Scope string_scope.
Open Scope list_scope.

(** ** Values *)

Inductive json : Type :=
| JNull
| JBool (b : bool)
| JInt (z : Z)
| JStr (s : string)
| JList (l : list json)
| JDict (d : list (string * json)).

(** [bool(v)], as used by [not v] and [v or w]. *)
Definition truthy (v : json) : bool :=
  match v with
  | JNull => false
  | JBool b => b
  | JInt z => negb (Z.eqb z 0)
  | JStr s => negb (String.eqb s "")
  | JList l => match l with [] => false | _ => true end
  | JDict d => match d with [] => false | _ => true end
  end.

(** [v or w] *)
Definition py_or (v w : json) : json := if truthy v then v else w.

(** ** Exceptions *)

Inductive exn : Type :=
| RequestException
| HTTPError
| JSONDecodeError
| AttributeError
| TypeError
| IndexError
| ValueError
| OSError.

Inductive result (A : Type) : Type :=
| Ok (a : A)
| Raise (e : exn).
Arguments Ok {A} a.
Arguments Raise {A} e.

Definition bind {A B : Type} (m : result A) (k : A -> result B) : result B :=
  match m with
  | Ok a => k a
  | Raise e => Raise e
  end.

Declare Scope py_scope.
Delimit Scope py_scope with py.
Notation "x <- m ;; k" := (bind m (fun x => k))
  (at level 61, m at next level, right associativity) : py_scope.
Open Scope py_scope.

(** A [for] loop whose body may raise: the state is threaded through the
    items from left to right and the first exception ends the loop. *)
Fixpoint for_each {S A : Type} (body : S -> A -> result S) (st : S) (items : list A)
  : result S :=
  match items with
  | [] => Ok st
  | x :: rest => st' <- body st x ;; for_each body st' rest
  end.

(** ** The dictionary and sequence operations the program uses *)

Fixpoint lookup (k : string) (d : list (string * json)) : option json :=
  match d with
  | [] => None
  | (k', v) :: rest => if String.eqb k k' then Some v else lookup k rest
  end.

Definition dict_get (d : list (string * json)) (k : string) (default : json) : json :=
  match lookup k d with
  | Some v => v
  | None => default
  end.

(** [v.get(k, default)] with a string literal [k]: only a dictionary has
    the attribute [get]. *)
Definition py_get (v : json) (k : string) (default : json) : result json :=
  match v with
  | JDict d => Ok (dict_get d k default)
  | _ => Raise AttributeError
  end.

(** [v.get(key, default)] with a key that is itself a value: lists and
    dictionaries are unhashable, and a key that is not a string equals no
    key of a dictionary parsed from JSON. *)
Definition py_get_key (v : json) (key : json) (default : json) : result json :=
  match v with
  | JDict d =>
      match key with
      | JStr k => Ok (dict_get d k default)
      | JList _ | JDict _ => Raise TypeError
      | _ => Ok default
      end
  | _ => Raise AttributeError
  end.

(** A byte that continues a code point in UTF-8. *)
Definition is_continuation (b : ascii) : bool :=
  (128 <=? N_of_ascii b)%N && (N_of_ascii b <? 192)%N.

(** The bytes of a string, one group per code point: a byte that is not
    a continuation byte starts a group.  The first component holds the
    continuation bytes before the first group; an encoding has none. *)
Fixpoint code_points (s : string) : string * list string :=
  match s with
  | EmptyString => (EmptyString, [])
  | String b rest =>
      let (tail, groups) := code_points rest in
      if is_continuation b then (String b tail, groups)
      else (EmptyString, String b tail :: groups)
  end.

(** The characters of a [str], each a [str] of length one. *)
Definition chars (s : string) : list json := map JStr (snd (code_points s)).

(** [iter(v)]: a list gives its items, a string its characters, a
    dictionary its keys; nothing else is iterable. *)
Definition py_iter (v : json) : result (list json) :=
  match v with
  | JList l => Ok l
  | JStr s => Ok (chars s)
  | JDict d => Ok (map (fun kv => JStr (fst kv)) d)
  | _ => Raise TypeError
  end.

(** The items of [sep.join(...)] must all be strings. *)
Fixpoint strings_of (items : list json) : result (list string) :=
  match items with
  | [] => Ok []
  | JStr s :: rest => l <- strings_of rest ;; Ok (s :: l)
  | _ :: _ => Raise TypeError
  end.

Definition join_list (sep : string) (items : list json) : result string :=
  l <- strings_of items ;; Ok (String.concat sep l).

(** [sep.join(v)] *)
Definition py_join (sep : string) (v : json) : result string :=
  items <- py_iter v ;; join_list sep items.

(** ** [re.search(r'university|college|institute|lab|school', s, re.I)]

    The subject is a [str]; the engine reads it one code point at a
    time. *)

(** The code point at the head of a string and the rest of the string:
    [*ptr] and [ptr + 1] of the engine.  [None] at the end of the string
    and where no code point starts. *)
Definition next_code_point (s : string) : option (N * string) :=
  match s with
  | EmptyString => None
  | String b0 rest =>
      let n0 := N_of_ascii b0 in
      if (n0 <? 128)%N then Some (n0, rest)
      else if (n0 <? 192)%N then None
      else if (n0 <? 224)%N then
        match rest with
        | String b1 rest =>
            let cp := ((n0 - 192) * 64 + (N_of_ascii b1 - 128))%N in
            if is_continuation b1 && (128 <=? cp)%N then Some (cp, rest) else None
        | _ => None
        end
      else if (n0 <? 240)%N then
        match rest with
        | String b1 (String b2 rest) =>
            let cp := ((n0 - 224) * 4096 + (N_of_ascii b1 - 128) * 64
                       + (N_of_ascii b2 - 128))%N in
            if is_continuation b1 && is_continuation b2 && (2048 <=? cp)%N
            then Some (cp, rest) else None
        | _ => None
        end
      else if (n0 <? 248)%N then
        match rest with
        | String b1 (String b2 (String b3 rest)) =>
            let cp := ((n0 - 240) * 262144 + (N_of_ascii b1 - 128) * 4096
                       + (N_of_ascii b2 - 128) * 64 + (N_of_ascii b3 - 128))%N in
            if is_continuation b1 && is_continuation b2 && is_continuation b3
               && (65536 <=? cp)%N && (cp <=? 1114111)%N
            then Some (cp, rest) else None
        | _ => None
        end
      else None
  end.

(** [sre_lower_unicode], the lower-case mapping of the Unicode database,
    on the code points it sends to an ASCII letter: the capitals, U+0130
    (capital I with dot above) and U+212A (the Kelvin sign).  Of the
    other code points the engine needs, for this pattern, only that
    their image is no ASCII letter and is U+0131 or U+017F for these two
    alone; the model leaves them where they are. *)
Definition sre_lower_unicode (cp : N) : N :=
  if (65 <=? cp)%N && (cp <=? 90)%N then (cp + 32)%N
  else if (cp =? 304)%N then 105%N
  else if (cp =? 8490)%N then 107%N
  else cp.

(** [_ignorecase_fixes] of [sre_compile] on ASCII letters: the lower-case
    letters that match [i] and [s] without being their lower case are the
    dotless i (U+0131) and the long s (U+017F). *)
Definition ignorecase_fixes (lo : N) : list N :=
  if (lo =? 105)%N then [305%N]
  else if (lo =? 115)%N then [383%N]
  else [].

(** One literal of the pattern against one code point, as compiled under
    IGNORECASE for a [str] pattern: the lowered code point is compared
    with the lowered literal (LITERAL_UNI_IGNORE) or, for a literal with
    fix-ups, looked up among the literal and its fix-ups
    (IN_UNI_IGNORE). *)
Definition literal_ignore (a : ascii) (cp : N) : bool :=
  let lo := sre_lower_unicode (N_of_ascii a) in
  existsb (N.eqb (sre_lower_unicode cp)) (lo :: ignorecase_fixes lo).

(** The literal [lit] matched at the head of [s], ignoring case. *)
Fixpoint match_literal (lit s : string) : bool :=
  match lit with
  | EmptyString => true
  | String a lit' =>
      match next_code_point s with
      | Some (cp, rest) => literal_ignore a cp && match_literal lit' rest
      | None => false
      end
  end.

(** The alternatives are tried in the order of the pattern; the result is
    the length of the first that matches at the head of [s]. *)
Fixpoint match_branches (alts : list string) (s : string) : option nat :=
  match alts with
  | [] => None
  | lit :: rest =>
      if match_literal lit s then Some (String.length lit) else match_branches rest s
  end.

(** The start positions are tried from left to right, the end of the
    string included; the result is the span of the match, counted in
    code points. *)
Fixpoint search_from (alts : list string) (pos : nat) (s : string) : option (nat * nat) :=
  match match_branches alts s with
  | Some n => Some (pos, pos + n)%nat
  | None =>
      match s with
      | EmptyString => None
      | String b rest => search_from alts (if is_continuation b then pos else S pos) rest
      end
  end.

Definition PATTERN : list string :=
  ["university"; "college"; "institute"; "lab"; "school"].

(** [re.search] accepts only a string as its subject. *)
Definition re_search (alts : list string) (v : json) : result (option (nat * nat)) :=
  match v with
  | JStr s => Ok (search_from alts 0 s)
  | _ => Raise TypeError
  end.

Definition is_none {A : Type} (o : option A) : bool :=
  match o with
  | None => true
  | Some _ => false
  end.

(** ** The two remote services *)

Inductive param : Type :=
| PStr (s : string)
| PInt (z : Z).

Record request : Type := mkRequest {
  url : string;
  params : list (string * param)
}.

(** A JSON document on which the parser itself gives up (nesting beyond
    the recursion limit, an integer literal beyond the digit limit) is
    outside the model: a body either is not JSON or parses to a value. *)
Record response : Type := mkResponse {
  status_code : Z;
  body : option json   (* [None]: the body is not a JSON document *)
}.

(** The network, as the program sees it: a request is answered by a
    response or not at all.  A run of the program is a function of its
    transport. *)
Definition transport : Type := request -> option response.

(** [requests.get(url, params=params)]: without an answer it raises a
    [RequestException]. *)
Definition requests_get (get : transport) (r : request) : result response :=
  match get r with
  | Some response => Ok response
  | None => Raise RequestException
  end.

Definition raise_for_status (r : response) : result unit :=
  if (400 <=? status_code r)%Z && (status_code r <? 600)%Z then Raise HTTPError else Ok tt.

(** [response.json()] *)
Definition response_json (r : response) : result json :=
  match body r with
  | Some v => Ok v
  | None => Raise JSONDecodeError
  end.

Definition PUBMED_API_URL : string :=
  "https://eutils.ncbi.nlm.nih.gov/entrez/eutils/esearch.fcgi".
Definition PUBMED_SUMMARY_URL : string :=
  "https://eutils.ncbi.nlm.nih.gov/entrez/eutils/esummary.fcgi".

Definition search_request (query : string) : request :=
  mkRequest PUBMED_API_URL
    [("db", PStr "pubmed"); ("term", PStr query); ("retmax", PInt 20); ("retmode", PStr "json")].

Definition fetch_pubmed_ids (get : transport) (query : string) : result json :=
  response <- requests_get get (search_request query) ;;
  _ <- raise_for_status response ;;
  data <- response_json response ;;
  esearchresult <- py_get data "esearchresult" (JDict []) ;;
  py_get esearchresult "idlist" (JList []).

Definition summary_request (ids : string) : request :=
  mkRequest PUBMED_SUMMARY_URL
    [("db", PStr "pubmed"); ("id", PStr ids); ("retmode", PStr "json")].

(** A paper is the dictionary built at lines 58-65, in insertion order. *)
Definition Paper : Type := list (string * json).

(** The list objects that the loop of [fetch_paper_details] appends to.
    They are locals of the function and outlive an iteration. *)
Record frame : Type := mkFrame {
  papers : list Paper;
  non_academic_authors : list json;
  companies : list json
}.

(** Lines 52-56: the body of the loop over the authors. *)
Definition author_step (st : frame) (author : json) : result frame :=
  name <- py_get author "name" (JStr "") ;;
  affiliation <- py_get author "affiliation" (JStr "") ;;
  found <- re_search PATTERN affiliation ;;
  if is_none found then
    Ok (mkFrame (papers st)
                (non_academic_authors st ++ [name])
                (companies st ++ [affiliation]))
  else Ok st.

Definition or_None (r : string) : json := py_or (JStr r) JNull.

(** Lines 42-65: the body of the loop over the identifiers. *)
Definition paper_step (summaries : json) (st : frame) (pid : json) : result frame :=
  summary <- py_get_key summaries pid (JDict []) ;;
  title <- py_get summary "title" JNull ;;
  pubdate <- py_get summary "pubdate" JNull ;;
  authors <- py_get summary "authors" (JList []) ;;
  let st := mkFrame (papers st) [] [] in
  email <- py_get summary "elocationid" (JStr "") ;;
  items <- py_iter authors ;;
  st <- for_each author_step st items ;;
  names <- join_list "; " (non_academic_authors st) ;;
  affiliations <- join_list "; " (companies st) ;;
  Ok (mkFrame
        (papers st ++
           [[("PubmedID", pid);
             ("Title", title);
             ("Publication Date", pubdate);
             ("Non-academic Author(s)", or_None names);
             ("Company Affiliation(s)", or_None affiliations);
             ("Corresponding Author Email", py_or email JNull)]])
        (non_academic_authors st)
        (companies st)).

Definition fetch_paper_details (get : transport) (paper_ids : json) : result (list Paper) :=
  ids <- py_join "," paper_ids ;;
  response <- requests_get get (summary_request ids) ;;
  _ <- raise_for_status response ;;
  data <- response_json response ;;
  summaries <- py_get data "result" (JDict []) ;;
  items <- py_iter paper_ids ;;
  st <- for_each (paper_step summaries) (mkFrame [] [] []) items ;;
  Ok (papers st).

(** ** The process: logger, standard output and files *)

Definition DEBUG : Z := 10.
Definition INFO : Z := 20.
Definition WARNING : Z := 30.
Definition ERROR : Z := 40.

(** The texts handed to the logger, with the values they interpolate. *)
Inductive message : Type :=
| FetchingIds (query : string)
| FoundIds (ids : json)
| FetchingDetails
| NoPapersFound
| SavingResults (filename : string)
| ErrorOccurred (e : exn).

(** A row is the list of values handed to the underlying [csv.writer]. *)
Definition row : Type := list json.

Record process : Type := mkProcess {
  level : Z;                            (* the level of [logger] *)
  logged : list (Z * message);          (* records emitted, oldest first *)
  printed : list Paper;                 (* [print] calls, oldest first *)
  files : list (string * list row)      (* files opened for writing *)
}.

(** [logging.basicConfig(level=logging.INFO)] at import time. *)
Definition initial : process := mkProcess INFO [] [] [].

(** How a block ends: normally, by an exception that derives from
    [Exception], or by [SystemExit], which does not. *)
Inductive completion (A : Type) : Type :=
| Normal (a : A)
| Raised (e : exn)
| Exited (code : Z).
Arguments Normal {A} a.
Arguments Raised {A} e.
Arguments Exited {A} code.

Definition IO (A : Type) : Type := process -> process * completion A.

Definition io_ret {A : Type} (a : A) : IO A := fun p => (p, Normal a).

Definition io_bind {A B : Type} (m : IO A) (k : A -> IO B) : IO B :=
  fun p =>
    match m p with
    | (p', Normal a) => k a p'
    | (p', Raised e) => (p', Raised e)
    | (p', Exited c) => (p', Exited c)
    end.

Declare Scope io_scope.
Delimit Scope io_scope with io.
Notation "x <- m ;; k" := (io_bind m (fun x => k))
  (at level 61, m at next level, right associativity) : io_scope.

(** A computation without effect on the process. *)
Definition lift {A : Type} (r : result A) : IO A :=
  fun p =>
    match r with
    | Ok a => (p, Normal a)
    | Raise e => (p, Raised e)
    end.

(** [try: body / except Exception as e: handler(e)] *)
Definition try_except {A : Type} (body : IO A) (handler : exn -> IO A) : IO A :=
  fun p =>
    match body p with
    | (p', Raised e) => handler e p'
    | other => other
    end.

Definition sys_exit {A : Type} (code : Z) : IO A := fun p => (p, Exited code).

Definition setLevel (l : Z) : IO unit :=
  fun p => (mkProcess l (logged p) (printed p) (files p), Normal tt).

(** A record is emitted when its level reaches the level of the logger. *)
Definition log (l : Z) (m : message) : IO unit :=
  fun p =>
    if (level p <=? l)%Z
    then (mkProcess (level p) (logged p ++ [(l, m)]) (printed p) (files p), Normal tt)
    else (p, Normal tt).

(** [print(paper)] on a standard output that takes every record; an
    output that refuses a record (an encoding that lacks a character) is
    not modelled. *)
Definition print (paper : Paper) : IO unit :=
  fun p => (mkProcess (level p) (logged p) (printed p ++ [paper]) (files p), Normal tt).

Fixpoint io_for_each {A : Type} (body : A -> IO unit) (items : list A) : IO unit :=
  match items with
  | [] => io_ret tt
  | x :: rest => (_ <- body x ;; io_for_each body rest)%io
  end.

(** [open(filename, mode='w', ...)]: [writable] says which paths the
    file system lets the program open; an opened file is created or
    truncated.  A name that [open] rejects before it reaches the file
    system (one that holds a NUL) is not modelled. *)
Definition open_w (writable : string -> bool) (filename : string) : IO unit :=
  fun p =>
    if writable filename
    then (mkProcess (level p) (logged p) (printed p)
            ((filename, []) :: filter (fun f => negb (String.eqb (fst f) filename)) (files p)),
          Normal tt)
    else (p, Raised OSError).

Fixpoint append_row (filename : string) (r : row) (fs : list (string * list row))
  : list (string * list row) :=
  match fs with
  | [] => []
  | (name, rows) :: rest =>
      if String.eqb name filename then (name, rows ++ [r]) :: rest
      else (name, rows) :: append_row filename r rest
  end.

(** [writer.writerow(values)] of the underlying [csv.writer]. *)
Definition writerow (filename : string) (r : row) : IO unit :=
  fun p =>
    (mkProcess (level p) (logged p) (printed p) (append_row filename r (files p)), Normal tt).

(** [DictWriter._dict_to_list]: a key outside the field names raises, a
    missing field is written as the empty string. *)
Definition dict_to_list (fieldnames : list string) (rowdict : Paper) : result row :=
  if forallb (fun kv => existsb (String.eqb (fst kv)) fieldnames) rowdict
  then Ok (map (fun key => dict_get rowdict key (JStr "")) fieldnames)
  else Raise ValueError.

(** [papers[0]] *)
Definition first_item {A : Type} (l : list A) : result A :=
  match l with
  | x :: _ => Ok x
  | [] => Raise IndexError
  end.

Definition save_to_csv (writable : string -> bool) (papers : list Paper) (filename : string)
  : IO unit :=
  (_ <- open_w writable filename ;;
   first <- lift (first_item papers) ;;
   let fieldnames := map fst first in
   _ <- writerow filename (map JStr fieldnames) ;;
   io_for_each
     (fun paper => r <- lift (dict_to_list fieldnames paper) ;; writerow filename r)
     papers)%io.

(** ** The driver *)

Record arguments : Type := mkArguments {
  query : string;
  debug : bool;
  file : option string
}.

(** [if args.file:] *)
Definition file_given (a : arguments) : option string :=
  match file a with
  | Some f => if String.eqb f "" then None else Some f
  | None => None
  end.

Definition main (get : transport) (writable : string -> bool) (args : arguments) : IO unit :=
  (_ <- (if debug args then setLevel DEBUG else io_ret tt) ;;
   try_except
     (_ <- log INFO (FetchingIds (query args)) ;;
      ids <- lift (fetch_pubmed_ids get (query args)) ;;
      _ <- log DEBUG (FoundIds ids) ;;
      _ <- log INFO FetchingDetails ;;
      papers <- lift (fetch_paper_details get ids) ;;
      _ <- match papers with
           | [] => (_ <- log WARNING NoPapersFound ;; sys_exit 0)
           | _ :: _ => io_ret tt
           end ;;
      match file_given args with
      | Some f =>
          _ <- log INFO (SavingResults f) ;;
          save_to_csv writable papers f
      | None => io_for_each print papers
      end)
     (fun e => _ <- log ERROR (ErrorOccurred e) ;; sys_exit 1))%io.

(** The exit status of the interpreter: 0 when the script runs to its
    end, the argument of [sys.exit] otherwise, 1 for an uncaught
    exception. *)
Definition exit_code (c : completion unit) : Z :=
  match c with
  | Normal _ => 0
  | Exited code => code
  | Raised _ => 1
  end.

Definition run (get : transport) (writable : string -> bool) (args : arguments)
  : process * Z :=
  let '(p, c) := main get writable args initial in (p, exit_code c).

(** ** The notions the properties are stated with *)

(** [kw] occurs in [s] as a contiguous substring. *)
Definition substring (kw s : string) : Prop :=
  exists pre suf, s = (pre ++ kw ++ suf)%string.

(** The ways to write a lower-case letter when case does not count: the
    letter, its capital and, for i, s and k, the letters that share a
    case form with them: U+0130 and U+0131 for i, U+017F for s, U+212A
    for k. *)
Definition spellings (k : ascii) : list string :=
  [String k ""; String (ascii_of_N (N_of_ascii k - 32)) ""] ++
  (if Ascii.eqb k "i" then ["İ"; "ı"]
   else if Ascii.eqb k "s" then ["ſ"]
   else if Ascii.eqb k "k" then ["K"]
   else []).

(** [w] is the keyword [kw] up to the case of its letters. *)
Inductive spells : string -> string -> Prop :=
| spells_nil : spells "" ""
| spells_cons (k : ascii) (kw v w : string) :
    In v (spellings k) -> spells kw w -> spells (String k kw) (v ++ w).

(** The affiliation contains one of the five keywords, ignoring case. *)
Definition academic (affiliation : string) : Prop :=
  exists kw w,
    In kw ["university"; "college"; "institute"; "lab"; "school"] /\
    spells kw w /\ substring w affiliation.




Definition is_small_letter (k : ascii) : bool :=
  (97 <=? N_of_ascii k)%N && (N_of_ascii k <=? 122)%N.

Fixpoint small_letters (s : string) : bool :=
  match s with
  | EmptyString => true
  | String k rest => is_small_letter k && small_letters rest
  end.


Definition is_str (v : json) : bool :=
  match v with
  | JStr _ => true
  | _ => false
  end.

Definition str_or_absent (k : string) (d : list (string * json)) : bool :=
  match lookup k d with
  | Some v => is_str v
  | None => true
  end.

(** An AuthorRecord of the data model: a dictionary whose name and
    affiliation are strings when present. *)
Definition author_record (a : json) : bool :=
  match a with
  | JDict d => str_or_absent "name" d && str_or_absent "affiliation" d
  | _ => false
  end.

(** A PaperSummary as far as the program depends on its shape: a
    dictionary whose authors, when present, are a list of AuthorRecords.
    The title, the date and the location identifier may be any values. *)
Definition paper_summary (s : json) : bool :=
  match s with
  | JDict d =>
      match lookup "authors" d with
      | None => true
      | Some (JList l) => forallb author_record l
      | Some _ => false
      end
  | _ => false
  end.

(** The summary service answers the request for [ids] with a success
    status and a document whose [result] object is [res]; the entries of
    [res] for the requested identifiers, where there are any, are
    PaperSummaries. *)
Definition serves (get : transport) (ids : list string) (res : list (string * json)) : Prop :=
  exists code top,
    get (summary_request (String.concat "," ids)) = Some (mkResponse code (Some (JDict top))) /\
    raise_for_status (mkResponse code (Some (JDict top))) = Ok tt /\
    dict_get top "result" (JDict []) = JDict res /\
    forallb (fun pid => paper_summary (dict_get res pid (JDict []))) ids = true.

Definition name_of (a : json) : string :=
  match a with
  | JDict d => match dict_get d "name" (JStr "") with JStr s => s | _ => "" end
  | _ => ""
  end.

Definition affiliation_of (a : json) : string :=
  match a with
  | JDict d => match dict_get d "affiliation" (JStr "") with JStr s => s | _ => "" end
  | _ => ""
  end.

(** The test of line 54 on an author record. *)
Definition non_academic (a : json) : bool :=
  is_none (search_from PATTERN 0 (affiliation_of a)).

(** The summary of [pid] in [res] and its author list, with the defaults
    of lines 42 and 45. *)
Definition summary_of (res : list (string * json)) (pid : string) : list (string * json) :=
  match dict_get res pid (JDict []) with
  | JDict d => d
  | _ => []
  end.

Definition authors_of (d : list (string * json)) : list json :=
  match dict_get d "authors" (JList []) with
  | JList l => l
  | _ => []
  end.

Definition FIELDS : list string :=
  ["PubmedID"; "Title"; "Publication Date"; "Non-academic Author(s)";
   "Company Affiliation(s)"; "Corresponding Author Email"].

(** The record expected for [pid], written with [filter] and [map]. *)
Definition record_of (res : list (string * json)) (pid : string) : Paper :=
  let d := summary_of res pid in
  let chosen := filter non_academic (authors_of d) in
  [("PubmedID", JStr pid);
   ("Title", dict_get d "title" JNull);
   ("Publication Date", dict_get d "pubdate" JNull);
   ("Non-academic Author(s)", or_None (String.concat "; " (map name_of chosen)));
   ("Company Affiliation(s)", or_None (String.concat "; " (map affiliation_of chosen)));
   ("Corresponding Author Email", py_or (dict_get d "elocationid" (JStr "")) JNull)].

(** The record of an identifier the response does not know. *)
Definition empty_record (pid : string) : Paper :=
  [("PubmedID", JStr pid);
   ("Title", JNull);
   ("Publication Date", JNull);
   ("Non-academic Author(s)", JNull);
   ("Company Affiliation(s)", JNull);
   ("Corresponding Author Email", JNull)].

(** The row of a paper under the six field names. *)
Definition row_of (paper : Paper) : row :=
  map (fun key => dict_get paper key (JStr "")) FIELDS.

(** The closed form of a run of [main] from the initial process. *)
Definition outcome (get : transport) (writable : string -> bool) (args : arguments)
  : process * completion unit :=
  let lvl := if debug args then DEBUG else INFO in
  let log0 := [(INFO, FetchingIds (query args))] in
  match fetch_pubmed_ids get (query args) with
  | Raise e => (mkProcess lvl (log0 ++ [(ERROR, ErrorOccurred e)]) [] [], Exited 1)
  | Ok ids =>
      let log1 :=
        log0 ++ (if debug args then [(DEBUG, FoundIds ids)] else []) ++ [(INFO, FetchingDetails)] in
      match fetch_paper_details get ids with
      | Raise e => (mkProcess lvl (log1 ++ [(ERROR, ErrorOccurred e)]) [] [], Exited 1)
      | Ok [] => (mkProcess lvl (log1 ++ [(WARNING, NoPapersFound)]) [] [], Exited 0)
      | Ok (p :: ps) =>
          match file_given args with
          | None => (mkProcess lvl log1 (p :: ps) [], Normal tt)
          | Some f =>
              if writable f
              then (mkProcess lvl (log1 ++ [(INFO, SavingResults f)]) []
                      [(f, map JStr FIELDS :: map row_of (p :: ps))],
                    Normal tt)
              else (mkProcess lvl
                      (log1 ++ [(INFO, SavingResults f); (ERROR, ErrorOccurred OSError)]) [] [],
                    Exited 1)
          end
      end
  end.

(** ** Sample services *)

Definition sample_authors : list json :=
  [JDict [("name", JStr "J. Doe"); ("affiliation", JStr "Acme Biotech Inc.")];
   JDict [("name", JStr "A. Smith"); ("affiliation", JStr "Dept. of Chemistry, MIT University")];
   JDict [("name", JStr "C. Ray"); ("affiliation", JStr "Elaboration Ltd")];
   JDict [("name", JStr "B. Lee")]].

Definition sample_result : list (string * json) :=
  [("uids", JList [JStr "1"; JStr "2"]);
   ("1", JDict [("title", JStr "X"); ("pubdate", JStr "2020");
                ("elocationid", JStr "doi: 10.1000/x");
                ("authors", JList sample_authors)]);
   ("2", JDict [("title", JStr "Y"); ("elocationid", JStr "");
                ("authors", JList [JDict [("name", JStr "J. Doe"); ("affiliation", JStr "")]])])].

Definition sample_idlist : json := JList [JStr "1"; JStr "2"; JStr "3"].

(** A well-behaved pair of services: three identifiers, of which the
    summary service knows the first two. *)
Definition sample_get : transport :=
  fun r =>
    if String.eqb (url r) PUBMED_API_URL
    then Some (mkResponse 200
               (Some (JDict [("header", JDict []);
                             ("esearchresult", JDict [("count", JStr "3");
                                                      ("idlist", sample_idlist)])])))
    else Some (mkResponse 200 (Some (JDict [("header", JDict []); ("result", JDict sample_result)]))).

(** The search finds nothing and the summary service then refuses the
    request with the empty identifier list. *)
Definition refusing_get : transport :=
  fun r =>
    if String.eqb (url r) PUBMED_API_URL
    then Some (mkResponse 200 (Some (JDict [("esearchresult", JDict [("idlist", JList [])])])))
    else Some (mkResponse 400 None).

(** The search finds nothing and the summary service answers the empty
    request with a document. *)
Definition empty_get : transport :=
  fun r =>
    if String.eqb (url r) PUBMED_API_URL
    then Some (mkResponse 200 (Some (JDict [("esearchresult", JDict [("idlist", JList [])])])))
    else Some (mkResponse 200
               (Some (JDict [("esummaryresult", JList [JStr "Empty id list - nothing todo"])]))).

(** A search service that answers with twenty-one identifiers. *)
Definition long_idlist : json :=
  JList [JStr "30000001"; JStr "30000002"; JStr "30000003"; JStr "30000004"; JStr "30000005"; JStr "30000006"; JStr "30000007"; JStr "30000008"; JStr "30000009"; JStr "30000010"; JStr "30000011"; JStr "30000012"; JStr "30000013"; JStr "30000014"; JStr "30000015"; JStr "30000016"; JStr "30000017"; JStr "30000018"; JStr "30000019"; JStr "30000020"; JStr "30000021"].

Definition long_get : transport :=
  fun _ => Some (mkResponse 200 (Some (JDict [("esearchresult", JDict [("idlist", long_idlist)])]))).

(** ** More notions and sample data *)

(** The exceptions of the remote call and of the dynamic checks, as
    the model of the fetch functions raises them. *)
Definition fetch_error (e : exn) : Prop :=
  In e [RequestException; HTTPError; JSONDecodeError; AttributeError; TypeError].

Definition is_dict (v : json) : bool :=
  match v with
  | JDict _ => true
  | _ => false
  end.

(** [400 <= status_code < 600] *)
Definition error_status (code : Z) : Prop := (400 <= code < 600)%Z.


(** A summary service that knows "1" and "2" and lists, for "2", an
    author whose affiliation is null. *)
Definition null_affiliation_result : list (string * json) :=
  [("1", JDict [("title", JStr ""); ("pubdate", JStr "2021 Mar")]);
   ("2", JDict [("authors",
                 JList [JDict [("name", JStr "A. Smith"); ("affiliation", JStr "MIT University")];
                        JDict [("name", JStr "J. Doe"); ("affiliation", JNull)]])])].

Definition null_affiliation_get : transport :=
  fun _ => Some (mkResponse 200 (Some (JDict [("result", JDict null_affiliation_result)]))).

(** The sample services with the search service out of reach. *)
Definition summary_only_get : transport :=
  fun r => if String.eqb (url r) PUBMED_SUMMARY_URL then sample_get r else None.






(** ** Proof automation *)

Create HintDb no_index.

(** Splits a hypothesis [bind m k = Ok _] into the result of [m] and the
    rest. *)
Ltac bind_inv H :=
  match type of H with
  | bind ?m _ = Ok _ =>
      let E := fresh "E" in
      destruct m eqn:E; simpl in H; [| discriminate H]
  end.

(** Follows a hypothesis [bind m k = Raise IndexError] through the binds;
    the branches in which [m] itself raised are closed with the hints. *)
Ltac raise_inv H :=
  repeat match type of H with
    | bind ?m _ = Raise _ =>
        let E := fresh "E" in
        destruct m eqn:E; simpl in H;
        [| injection H as H; subst; solve [exfalso; eauto with no_index]]
    end.

Create HintDb raises.

(** Follows a hypothesis [bind m k = Raise e] through the binds; the
    branches in which [m] itself raised are closed with the hints. *)
Ltac raise_cases H :=
  repeat match type of H with
    | bind ?m _ = Raise _ =>
        let E := fresh "E" in
        destruct m eqn:E; simpl in H;
        [| injection H as H; subst; solve [eauto with raises]]
    end.

(** Decides membership of a record in an explicit log and the
    equations between results that come with it. *)
Ltac log_cases :=
  simpl;
  repeat match goal with
    | |- _ /\ _ => split
    | |- _ <-> _ => split
    | |- forall _, _ => intro
    | H : _ /\ _ |- _ => destruct H
    | H : exists _, _ |- _ => destruct H
    | H : _ \/ _ |- _ => destruct H
    | H : False |- _ => contradiction
    | H : (_, _) = (_, _) |- _ => first [discriminate H | inversion H; subst; clear H]
    | H : Ok _ = Ok _ |- _ => inversion H; subst; clear H
    | H : Some _ = Some _ |- _ => inversion H; subst; clear H
    end;
  try discriminate; try congruence; eauto 10.

(** * Properties *)

(** ** Strings and the search *)

Lemma is_continuation_range (b : ascii) :
  is_continuation b = true <-> (128 <= N_of_ascii b < 192)%N.
Proof.
  unfold is_continuation. rewrite andb_true_iff, N.leb_le, N.ltb_lt. tauto.
Qed.

Lemma byte_of_N (b : ascii) (n : N) : N_of_ascii b = n -> b = ascii_of_N n.
Proof.
  intros <-. symmetry. apply ascii_N_embedding.
Qed.

(** What a successful read of a code point says about the bytes. *)
Lemma next_code_point_inv (s : string) (cp : N) (rest : string) :
  next_code_point s = Some (cp, rest) ->
  ((cp < 128)%N /\ s = String (ascii_of_N cp) rest) \/
  (exists b0 b1,
     s = String b0 (String b1 rest) /\
     (192 <= N_of_ascii b0 < 224)%N /\ (128 <= N_of_ascii b1 < 192)%N /\
     cp = ((N_of_ascii b0 - 192) * 64 + (N_of_ascii b1 - 128))%N /\ (128 <= cp)%N) \/
  (exists b0 b1 b2,
     s = String b0 (String b1 (String b2 rest)) /\
     (224 <= N_of_ascii b0 < 240)%N /\ (128 <= N_of_ascii b1 < 192)%N /\
     (128 <= N_of_ascii b2 < 192)%N /\
     cp = ((N_of_ascii b0 - 224) * 4096 + (N_of_ascii b1 - 128) * 64
           + (N_of_ascii b2 - 128))%N /\ (2048 <= cp)%N) \/
  (65536 <= cp)%N.
Proof.
  destruct s as [|b0 s]; simpl; [discriminate |].
  destruct (N.ltb_spec (N_of_ascii b0) 128) as [H0|H0].
  { intros H. injection H as <- <-. left. split; [assumption |].
    now rewrite ascii_N_embedding. }
  destruct (N.ltb_spec (N_of_ascii b0) 192) as [H1|H1]; [discriminate |].
  destruct (N.ltb_spec (N_of_ascii b0) 224) as [H2|H2].
  { destruct s as [|b1 s]; [discriminate |].
    destruct (is_continuation b1) eqn:C1; simpl; [| discriminate].
    destruct (N.leb_spec 128 ((N_of_ascii b0 - 192) * 64 + (N_of_ascii b1 - 128)))
      as [H3|H3]; [| discriminate].
    intros H. injection H as <- <-. right. left.
    apply is_continuation_range in C1. exists b0, b1. repeat split; try lia; assumption. }
  destruct (N.ltb_spec (N_of_ascii b0) 240) as [H3|H3].
  { destruct s as [|b1 [|b2 s]]; try discriminate.
    destruct (is_continuation b1) eqn:C1; simpl; [| discriminate].
    destruct (is_continuation b2) eqn:C2; simpl; [| discriminate].
    match goal with |- context [(2048 <=? ?x)%N] =>
      destruct (N.leb_spec 2048 x) as [H4|H4]; [| discriminate] end.
    intros H. injection H as <- <-. right. right. left.
    apply is_continuation_range in C1, C2.
    exists b0, b1, b2. repeat split; try lia; assumption. }
  destruct (N.ltb_spec (N_of_ascii b0) 248) as [H4|H4]; [| discriminate].
  destruct s as [|b1 [|b2 [|b3 s]]]; try discriminate.
  destruct (is_continuation b1 && is_continuation b2 && is_continuation b3); simpl;
    [| discriminate].
  match goal with |- context [(65536 <=? ?x)%N] =>
    destruct (N.leb_spec 65536 x) as [H5|H5]; simpl; [| discriminate] end.
  match goal with |- context [(?x <=? 1114111)%N] =>
    destruct (N.leb_spec x 1114111) as [H6|H6]; [| discriminate] end.
  intros H. injection H as <- <-. right. right. right. assumption.
Qed.

Lemma small_letter_range (k : ascii) :
  is_small_letter k = true <-> (97 <= N_of_ascii k <= 122)%N.
Proof.
  unfold is_small_letter. rewrite andb_true_iff, !N.leb_le. tauto.
Qed.

Lemma sre_lower_unicode_cases (cp n : N) :
  (97 <= n <= 122)%N ->
  sre_lower_unicode cp = n <->
  cp = n \/ cp = (n - 32)%N \/ (n = 105%N /\ cp = 304%N) \/ (n = 107%N /\ cp = 8490%N).
Proof.
  intros Hn. unfold sre_lower_unicode.
  destruct (N.leb_spec 65 cp); destruct (N.leb_spec cp 90); simpl;
    destruct (N.eqb_spec cp 304); destruct (N.eqb_spec cp 8490); lia.
Qed.

(** The code points that a small letter of the pattern matches. *)
Lemma literal_ignore_cases (k : ascii) (cp : N) :
  is_small_letter k = true ->
  literal_ignore k cp = true <->
  cp = N_of_ascii k \/ cp = (N_of_ascii k - 32)%N \/
  (N_of_ascii k = 105%N /\ (cp = 304%N \/ cp = 305%N)) \/
  (N_of_ascii k = 115%N /\ cp = 383%N) \/
  (N_of_ascii k = 107%N /\ cp = 8490%N).
Proof.
  intros Hk. apply small_letter_range in Hk.
  unfold literal_ignore.
  assert (E : sre_lower_unicode (N_of_ascii k) = N_of_ascii k).
  { apply sre_lower_unicode_cases; [assumption | now left]. }
  rewrite E. simpl. rewrite orb_true_iff, N.eqb_eq.
  rewrite (sre_lower_unicode_cases cp (N_of_ascii k) Hk).
  unfold ignorecase_fixes.
  destruct (N.eqb_spec (N_of_ascii k) 105) as [Ei|Ei].
  - simpl. rewrite orb_false_r, N.eqb_eq. unfold sre_lower_unicode.
    destruct (N.leb_spec 65 cp); destruct (N.leb_spec cp 90); simpl;
      destruct (N.eqb_spec cp 304); destruct (N.eqb_spec cp 8490); lia.
  - destruct (N.eqb_spec (N_of_ascii k) 115) as [Es|Es].
    + simpl. rewrite orb_false_r, N.eqb_eq. unfold sre_lower_unicode.
      destruct (N.leb_spec 65 cp); destruct (N.leb_spec cp 90); simpl;
        destruct (N.eqb_spec cp 304); destruct (N.eqb_spec cp 8490); lia.
    + simpl. lia.
Qed.

Lemma small_letter_byte (k : ascii) (n : N) :
  N_of_ascii k = n -> k = ascii_of_N n.
Proof. apply byte_of_N. Qed.

(** Reading a code point that the letter [k] of the pattern matches is
    reading one of the spellings of [k]. *)
Lemma letter_spellings (k : ascii) (s rest : string) :
  is_small_letter k = true ->
  (exists cp, next_code_point s = Some (cp, rest) /\ literal_ignore k cp = true) <->
  (exists v, In v (spellings k) /\ s = (v ++ rest)%string).
Proof.
  intros Hk. pose proof (proj1 (small_letter_range k) Hk) as Rk. split.
  - intros [cp [Hd Hm]].
    apply (literal_ignore_cases k cp Hk) in Hm.
    apply next_code_point_inv in Hd.
    destruct Hm as [E | [E | [[Ek E] | [[Ek E] | [Ek E]]]]].
    + subst cp. destruct Hd as [[_ Hs] | [H | [H | H]]].
      * exists (String k ""). split; [now left |].
        now rewrite Hs, ascii_N_embedding.
      * destruct H as [b0 [b1 [_ [? [? [? ?]]]]]]. lia.
      * destruct H as [b0 [b1 [b2 [_ [? [? [? [? ?]]]]]]]]. lia.
      * lia.
    + subst cp. destruct Hd as [[_ Hs] | [H | [H | H]]].
      * exists (String (ascii_of_N (N_of_ascii k - 32)) ""). split; [right; now left |].
        exact Hs.
      * destruct H as [b0 [b1 [_ [? [? [? ?]]]]]]. lia.
      * destruct H as [b0 [b1 [b2 [_ [? [? [? [? ?]]]]]]]]. lia.
      * lia.
    + apply small_letter_byte in Ek. subst k.
      destruct Hd as [[Hc _] | [H | [H | H]]]; [lia | | | lia].
      * destruct H as [b0 [b1 [Hs [H0 [H1 [Hcp _]]]]]].
        destruct E as [E | E]; subst cp.
        -- assert (N_of_ascii b0 = 196%N) by lia. assert (N_of_ascii b1 = 176%N) by lia.
           apply byte_of_N in H, H2. subst b0 b1. subst s.
           exists "İ". split; [| reflexivity]. simpl. tauto.
        -- assert (N_of_ascii b0 = 196%N) by lia. assert (N_of_ascii b1 = 177%N) by lia.
           apply byte_of_N in H, H2. subst b0 b1. subst s.
           exists "ı". split; [| reflexivity]. simpl. tauto.
      * destruct H as [b0 [b1 [b2 [_ [? [? [? [? ?]]]]]]]]. lia.
    + apply small_letter_byte in Ek. subst k.
      destruct Hd as [[Hc _] | [H | [H | H]]]; [lia | | | lia].
      * destruct H as [b0 [b1 [Hs [H0 [H1 [Hcp _]]]]]]. subst cp.
        assert (N_of_ascii b0 = 197%N) by lia. assert (N_of_ascii b1 = 191%N) by lia.
        apply byte_of_N in H, H2. subst b0 b1. subst s.
        exists "ſ". split; [| reflexivity]. simpl. tauto.
      * destruct H as [b0 [b1 [b2 [_ [? [? [? [? ?]]]]]]]]. lia.
    + apply small_letter_byte in Ek. subst k.
      destruct Hd as [[Hc _] | [H | [H | H]]]; [lia | | | lia].
      * destruct H as [b0 [b1 [_ [? [? [? ?]]]]]]. lia.
      * destruct H as [b0 [b1 [b2 [Hs [H0 [H1 [H2 [Hcp _]]]]]]]]. subst cp.
        assert (N_of_ascii b0 = 226%N) by lia. assert (N_of_ascii b1 = 132%N) by lia.
        assert (N_of_ascii b2 = 170%N) by lia.
        apply byte_of_N in H, H3, H4. subst b0 b1 b2. subst s.
        exists "K". split; [| reflexivity]. simpl. tauto.
  - intros [v [Hin ->]]. unfold spellings in Hin. apply in_app_or in Hin.
    destruct Hin as [[<- | [<- | []]] | Hin].
    + exists (N_of_ascii k). split.
      * simpl. destruct (N.ltb_spec (N_of_ascii k) 128); [reflexivity | lia].
      * apply literal_ignore_cases; [assumption | now left].
    + exists (N_of_ascii k - 32)%N. split.
      * simpl. rewrite N_ascii_embedding by lia.
        destruct (N.ltb_spec (N_of_ascii k - 32) 128); [reflexivity | lia].
      * apply literal_ignore_cases; [assumption | right; now left].
    + destruct (Ascii.eqb_spec k "i") as [-> | _].
      { destruct Hin as [<- | [<- | []]]; [exists 304%N | exists 305%N]; split; reflexivity. }
      destruct (Ascii.eqb_spec k "s") as [-> | _].
      { destruct Hin as [<- | []]. exists 383%N. split; reflexivity. }
      destruct (Ascii.eqb_spec k "k") as [-> | _]; [| destruct Hin].
      destruct Hin as [<- | []]. exists 8490%N. split; reflexivity.
Qed.

Lemma string_append_assoc (a b c : string) :
  ((a ++ b) ++ c)%string = (a ++ b ++ c)%string.
Proof.
  induction a as [|x a IH]; simpl; [reflexivity | now rewrite IH].
Qed.

(** A literal matches at the head exactly when the subject starts with
    the literal, up to the case of its letters. *)
Lemma match_literal_prefix (lit s : string) :
  small_letters lit = true ->
  match_literal lit s = true <->
  exists w rest, spells lit w /\ s = (w ++ rest)%string.
Proof.
  revert s; induction lit as [|k lit IH]; intros s Hl.
  - simpl. split; [intros _ | reflexivity]. exists ""%string, s. split; [constructor | reflexivity].
  - simpl in Hl. apply andb_true_iff in Hl. destruct Hl as [Hk Hl]. simpl. split.
    + destruct (next_code_point s) as [[cp r]|] eqn:Ed; [| discriminate].
      intros H. apply andb_true_iff in H. destruct H as [Hm Hr].
      destruct (proj1 (letter_spellings k s r Hk)) as [v [Hv ->]]; [now exists cp |].
      apply (IH r Hl) in Hr. destruct Hr as [w [rest [Hw ->]]].
      exists (v ++ w)%string, rest. split; [now constructor |].
      now rewrite string_append_assoc.
    + intros [w [rest [Hw ->]]].
      inversion Hw as [|k' kw v w' Hv Hw' E1 E2]; subst.
      destruct (proj2 (letter_spellings k ((v ++ w') ++ rest) (w' ++ rest) Hk))
        as [cp [Hd Hm]].
      { exists v. split; [assumption | apply string_append_assoc]. }
      rewrite Hd, Hm. simpl. apply (IH _ Hl). now exists w', rest.
Qed.

Lemma match_branches_none (alts : list string) (s : string) :
  match_branches alts s = None <->
  forall lit, In lit alts -> match_literal lit s = false.
Proof.
  induction alts as [|lit alts IH]; simpl.
  - split; [intros _ lit [] | reflexivity].
  - destruct (match_literal lit s) eqn:E.
    + split; [discriminate |].
      intros H. specialize (H lit (or_introl eq_refl)). congruence.
    + rewrite IH. split.
      * intros H l [<- | Hin]; [assumption | now apply H].
      * intros H l Hin. apply H. now right.
Qed.

Lemma match_branches_some (alts : list string) (s : string) (n : nat) :
  match_branches alts s = Some n ->
  exists lit, In lit alts /\ match_literal lit s = true.
Proof.
  induction alts as [|lit alts IH]; simpl; [discriminate |].
  destruct (match_literal lit s) eqn:E.
  - intros _. exists lit. split; [now left | assumption].
  - intros H. destruct (IH H) as [l [Hin M]]. exists l. split; [now right | assumption].
Qed.

Lemma substring_tail (kw s : string) (c : ascii) :
  substring kw s -> substring kw (String c s).
Proof.
  intros [pre [suf ->]]. now exists (String c pre), suf.
Qed.

Lemma search_from_some (alts : list string) (pos : nat) (s : string) (span : nat * nat) :
  forallb small_letters alts = true ->
  search_from alts pos s = Some span ->
  exists lit w, In lit alts /\ spells lit w /\ substring w s.
Proof.
  intros Ha. rewrite forallb_forall in Ha.
  revert pos; induction s as [|c s IH]; intros pos; simpl.
  - destruct (match_branches alts "") eqn:E; [| discriminate].
    intros _. destruct (match_branches_some _ _ _ E) as [lit [Hin M]].
    apply (match_literal_prefix lit "" (Ha lit Hin)) in M. destruct M as [w [rest M]].
    exists lit, w. split; [assumption |]. split; [tauto |]. now exists ""%string, rest.
  - destruct (match_branches alts (String c s)) eqn:E.
    + intros _. destruct (match_branches_some _ _ _ E) as [lit [Hin M]].
      apply (match_literal_prefix lit _ (Ha lit Hin)) in M. destruct M as [w [rest M]].
      exists lit, w. split; [assumption |]. split; [tauto |]. now exists ""%string, rest.
    + intros H. destruct (IH _ H) as [lit [w [Hin [Hw Hsub]]]].
      exists lit, w. split; [assumption |]. split; [assumption |].
      now apply substring_tail.
Qed.

(** The search fails exactly when no alternative occurs anywhere in the
    subject, whatever the case of its letters. *)
Lemma search_from_none (alts : list string) (pos : nat) (s : string) :
  forallb small_letters alts = true ->
  search_from alts pos s = None <->
  forall lit w, In lit alts -> spells lit w -> ~ substring w s.
Proof.
  intros Ha. split.
  - intros H lit w Hin Hw [pre [suf Hs]].
    rewrite forallb_forall in Ha.
    revert pos s H Hs. induction pre as [|x pre IH]; intros pos s H Hs.
    + assert (M : match_literal lit s = true).
      { apply (match_literal_prefix lit s (Ha lit Hin)). now exists w, suf. }
      destruct s; simpl in H;
        destruct (match_branches alts _) eqn:E; try discriminate;
        rewrite match_branches_none in E; rewrite (E lit Hin) in M; discriminate.
    + destruct s as [|c s]; [discriminate |]. simpl in Hs. injection Hs as _ Hs.
      simpl in H. destruct (match_branches alts (String c s)); [discriminate |].
      now apply (IH _ s H).
  - intros H. destruct (search_from alts pos s) as [span|] eqn:E; [| reflexivity].
    destruct (search_from_some alts pos s span Ha E) as [lit [w [Hin [Hw Hsub]]]].
    now destruct (H lit w Hin Hw).
Qed.

(** The test of line 54 finds a match exactly on the affiliations that
    contain a keyword, whatever the case of its letters. *)
Lemma non_academic_iff (a : json) :
  non_academic a = false <-> academic (affiliation_of a).
Proof.
  unfold non_academic, academic.
  destruct (search_from PATTERN 0 (affiliation_of a)) eqn:E; simpl.
  - split; [intros _ | reflexivity].
    destruct (search_from_some PATTERN 0 _ _ eq_refl E) as [lit [w [Hin [Hw Hsub]]]].
    now exists lit, w.
  - split; [discriminate |]. intros [kw [w [Hin [Hw Hsub]]]]. exfalso.
    rewrite (search_from_none PATTERN 0 _ eq_refl) in E. now apply (E kw w).
Qed.

Lemma non_academic_true_iff (a : json) :
  non_academic a = true <-> ~ academic (affiliation_of a).
Proof.
  rewrite <- non_academic_iff. destruct (non_academic a); split; congruence.
Qed.

(** *** The search and ASCII case folding *)










(** ** The loop over the authors *)

Lemma str_or_absent_get (k : string) (d : list (string * json)) (default : string) :
  str_or_absent k d = true ->
  exists s, dict_get d k (JStr default) = JStr s.
Proof.
  unfold str_or_absent, dict_get. destruct (lookup k d) as [v|].
  - destruct v; try discriminate. intros _. now eexists.
  - intros _. now eexists.
Qed.

Lemma author_step_record (st : frame) (a : json) :
  author_record a = true ->
  author_step st a =
    Ok (if non_academic a
        then mkFrame (papers st)
                     (non_academic_authors st ++ [JStr (name_of a)])
                     (companies st ++ [JStr (affiliation_of a)])
        else st).
Proof.
  destruct a as [| | | |l|d]; try discriminate. simpl.
  intros H. apply andb_true_iff in H. destruct H as [Hn Ha].
  destruct (str_or_absent_get _ _ "" Hn) as [n En].
  destruct (str_or_absent_get _ _ "" Ha) as [f Ef].
  unfold author_step, non_academic. simpl. rewrite En, Ef. simpl.
  destruct (search_from PATTERN 0 f); reflexivity.
Qed.

Lemma for_each_author_step (authors : list json) (ps : list Paper) (na co : list json) :
  forallb author_record authors = true ->
  for_each author_step (mkFrame ps na co) authors =
    Ok (mkFrame ps
          (na ++ map (fun a => JStr (name_of a)) (filter non_academic authors))
          (co ++ map (fun a => JStr (affiliation_of a)) (filter non_academic authors))).
Proof.
  revert na co; induction authors as [|a authors IH]; intros na co H; simpl.
  - now rewrite !app_nil_r.
  - simpl in H. apply andb_true_iff in H. destruct H as [Ha Hrest].
    rewrite (author_step_record _ _ Ha). simpl.
    destruct (non_academic a); simpl.
    + rewrite (IH _ _ Hrest). now rewrite <- !app_assoc.
    + now apply IH.
Qed.

(** The step either raises or appends to the two lists of the frame it
    is given; what it appends does not depend on the frame. *)
Lemma author_step_frame (a : json) (ps : list Paper) (na co : list json) :
  match author_step (mkFrame [] [] []) a with
  | Ok out =>
      author_step (mkFrame ps na co) a =
        Ok (mkFrame ps (na ++ non_academic_authors out) (co ++ companies out)) /\
      papers out = []
  | Raise e => author_step (mkFrame ps na co) a = Raise e
  end.
Proof.
  unfold author_step.
  destruct (py_get a "name" (JStr "")) as [n|e]; simpl; [| reflexivity].
  destruct (py_get a "affiliation" (JStr "")) as [f|e]; simpl; [| reflexivity].
  destruct (re_search PATTERN f) as [m|e]; simpl; [| reflexivity].
  destruct (is_none m); simpl; [now split |].
  now rewrite !app_nil_r.
Qed.

Lemma for_each_author_step_frame (authors : list json) (ps : list Paper) (na co : list json) :
  match for_each author_step (mkFrame [] [] []) authors with
  | Ok out =>
      for_each author_step (mkFrame ps na co) authors =
        Ok (mkFrame ps (na ++ non_academic_authors out) (co ++ companies out)) /\
      papers out = []
  | Raise e => for_each author_step (mkFrame ps na co) authors = Raise e
  end.
Proof.
  revert ps na co.
  assert (G : forall ps0 na0 co0 ps na co,
             match for_each author_step (mkFrame ps0 na0 co0) authors with
             | Ok out =>
                 exists dn dc,
                   non_academic_authors out = na0 ++ dn /\ companies out = co0 ++ dc /\
                   papers out = ps0 /\
                   for_each author_step (mkFrame ps na co) authors =
                     Ok (mkFrame ps (na ++ dn) (co ++ dc))
             | Raise e => for_each author_step (mkFrame ps na co) authors = Raise e
             end).
  { induction authors as [|a authors IH]; intros ps0 na0 co0 ps na co; simpl.
    - exists [], []. now rewrite !app_nil_r.
    - pose proof (author_step_frame a ps0 na0 co0) as H0.
      pose proof (author_step_frame a ps na co) as H1.
      destruct (author_step (mkFrame [] [] []) a) as [out|e].
      + destruct H0 as [H0 _], H1 as [H1 _]. rewrite H0, H1. simpl.
        specialize (IH ps0 (na0 ++ non_academic_authors out) (co0 ++ companies out)
                       ps (na ++ non_academic_authors out) (co ++ companies out)).
        destruct (for_each author_step _ authors) as [out'|e'] in IH |- *.
        * destruct IH as [dn [dc [E1 [E2 [E3 E4]]]]].
          exists (non_academic_authors out ++ dn), (companies out ++ dc).
          rewrite E1, E2, E3, E4. now rewrite !app_assoc.
        * exact IH.
      + rewrite H0, H1. reflexivity. }
  intros ps na co. specialize (G [] [] [] ps na co).
  destruct (for_each author_step (mkFrame [] [] []) authors) as [out|e]; [| exact G].
  destruct G as [dn [dc [E1 [E2 [E3 E4]]]]]. simpl in E1, E2.
  rewrite E1, E2. now split.
Qed.

(** ** The loop over the identifiers *)

Lemma strings_of_map (f : json -> string) (l : list json) :
  strings_of (map (fun a => JStr (f a)) l) = Ok (map f l).
Proof.
  induction l as [|a l IH]; simpl; [reflexivity | now rewrite IH].
Qed.

Lemma strings_of_JStr (l : list string) : strings_of (map JStr l) = Ok l.
Proof.
  induction l as [|a l IH]; simpl; [reflexivity | now rewrite IH].
Qed.

Lemma strings_of_inv (items : list json) (l : list string) :
  strings_of items = Ok l -> items = map JStr l.
Proof.
  revert l; induction items as [|v items IH]; intros l; simpl.
  - intros H. now injection H as <-.
  - destruct v; try discriminate.
    destruct (strings_of items) as [l'|e]; simpl; [| discriminate].
    intros H. injection H as <-. simpl. now rewrite (IH l' eq_refl).
Qed.

Lemma paper_summary_dict (v : json) :
  paper_summary v = true ->
  exists d, v = JDict d /\
    (exists l, dict_get d "authors" (JList []) = JList l /\ forallb author_record l = true).
Proof.
  destruct v as [| | | |l|d]; try discriminate. simpl.
  intros H. exists d. split; [reflexivity |].
  unfold dict_get. destruct (lookup "authors" d) as [v|].
  - destruct v; try discriminate. now eexists.
  - now exists [].
Qed.

Lemma paper_step_record (res : list (string * json)) (st : frame) (pid : string) :
  paper_summary (dict_get res pid (JDict [])) = true ->
  paper_step (JDict res) st (JStr pid) =
    Ok (mkFrame (papers st ++ [record_of res pid])
          (map (fun a => JStr (name_of a))
               (filter non_academic (authors_of (summary_of res pid))))
          (map (fun a => JStr (affiliation_of a))
               (filter non_academic (authors_of (summary_of res pid))))).
Proof.
  intros H. destruct (paper_summary_dict _ H) as [d [Ed [l [El Hl]]]].
  unfold paper_step, record_of, summary_of, authors_of. simpl.
  rewrite Ed. simpl. rewrite El. simpl.
  rewrite (for_each_author_step l (papers st) [] [] Hl). simpl.
  unfold join_list. rewrite !strings_of_map. simpl. reflexivity.
Qed.

Lemma for_each_paper_step (res : list (string * json)) (ids : list string) (st : frame) :
  forallb (fun pid => paper_summary (dict_get res pid (JDict []))) ids = true ->
  exists na co,
    for_each (paper_step (JDict res)) st (map JStr ids) =
      Ok (mkFrame (papers st ++ map (record_of res) ids) na co).
Proof.
  revert st; induction ids as [|pid ids IH]; intros st H; simpl.
  - exists (non_academic_authors st), (companies st).
    rewrite app_nil_r. now destruct st.
  - simpl in H. apply andb_true_iff in H. destruct H as [Hp Hrest].
    rewrite (paper_step_record _ _ _ Hp). simpl.
    destruct (IH (mkFrame (papers st ++ [record_of res pid])
                    (map (fun a => JStr (name_of a))
                       (filter non_academic (authors_of (summary_of res pid))))
                    (map (fun a => JStr (affiliation_of a))
                       (filter non_academic (authors_of (summary_of res pid))))) Hrest)
      as [na [co E]].
    exists na, co. rewrite E. simpl. now rewrite <- app_assoc.
Qed.

(** On a response of the data model the function returns the expected
    record of every identifier, in order. *)
Lemma fetch_paper_details_records (get : transport) (ids : list string)
      (res : list (string * json)) :
  serves get ids res ->
  fetch_paper_details get (JList (map JStr ids)) = Ok (map (record_of res) ids).
Proof.
  intros [code [top [Hget [Hstatus [Hres Hwf]]]]].
  unfold fetch_paper_details, py_join, join_list. simpl.
  rewrite strings_of_JStr. simpl. unfold requests_get. rewrite Hget. simpl. rewrite Hstatus. simpl.
  rewrite Hres. simpl.
  destruct (for_each_paper_step res ids (mkFrame [] [] []) Hwf) as [na [co E]].
  rewrite E. reflexivity.
Qed.

(** *** What holds of every list the function returns *)

Lemma author_step_papers (st st' : frame) (a : json) :
  author_step st a = Ok st' -> papers st' = papers st.
Proof.
  unfold author_step. intros H. repeat bind_inv H.
  destruct (is_none _) in H; injection H as <-; reflexivity.
Qed.

Lemma for_each_author_step_papers (authors : list json) (st st' : frame) :
  for_each author_step st authors = Ok st' -> papers st' = papers st.
Proof.
  revert st; induction authors as [|a authors IH]; intros st; simpl.
  - intros H. now injection H as <-.
  - intros H. bind_inv H. rewrite (IH _ H). now apply author_step_papers with a.
Qed.

Lemma paper_step_appends (summaries : json) (st st' : frame) (pid : json) :
  paper_step summaries st pid = Ok st' ->
  exists p,
    papers st' = papers st ++ [p] /\ map fst p = FIELDS /\ lookup "PubmedID" p = Some pid.
Proof.
  unfold paper_step. intros H. repeat bind_inv H.
  injection H as <-. simpl.
  match goal with E : for_each author_step _ _ = Ok _ |- _ =>
    apply for_each_author_step_papers in E; simpl in E; rewrite E end.
  eexists. split; [reflexivity |]. split; reflexivity.
Qed.

Lemma for_each_paper_step_appends (summaries : json) (items : list json) (st st' : frame) :
  for_each (paper_step summaries) st items = Ok st' ->
  exists ps,
    papers st' = papers st ++ ps /\
    Forall (fun p => map fst p = FIELDS) ps /\
    map (lookup "PubmedID") ps = map Some items.
Proof.
  revert st; induction items as [|pid items IH]; intros st; simpl.
  - intros H. injection H as <-. exists []. rewrite app_nil_r. now repeat split.
  - intros H. bind_inv H.
    destruct (paper_step_appends _ _ _ _ E) as [p [Ep [Hk Hp]]].
    destruct (IH _ H) as [ps [Eps [Hks Hps]]].
    exists (p :: ps). rewrite Eps, Ep, <- app_assoc. simpl.
    split; [reflexivity |]. split; [now constructor | now rewrite Hp, Hps].
Qed.

Lemma fetch_paper_details_inv (get : transport) (paper_ids : json) (ps : list Paper) :
  fetch_paper_details get paper_ids = Ok ps ->
  exists ids,
    py_iter paper_ids = Ok (map JStr ids) /\
    Forall (fun p => map fst p = FIELDS) ps /\
    map (lookup "PubmedID") ps = map (fun pid => Some (JStr pid)) ids.
Proof.
  unfold fetch_paper_details, py_join, join_list. intros H.
  destruct (py_iter paper_ids) as [items|e] eqn:Ei; simpl in H; [| discriminate].
  destruct (strings_of items) as [ids|e] eqn:Es; simpl in H; [| discriminate].
  repeat bind_inv H. injection H as <-.
  match goal with E : for_each _ _ _ = Ok _ |- _ =>
    destruct (for_each_paper_step_appends _ _ _ _ E) as [ps [Eps [Hk Hp]]] end.
  simpl in Eps. rewrite Eps.
  exists ids. apply strings_of_inv in Es. subst items.
  split; [reflexivity |]. split; [assumption |].
  now rewrite Hp, map_map.
Qed.

(** ** The sink and the driver *)

Lemma io_for_each_print (l : list Paper) (lvl : Z) (lg : list (Z * message))
      (pr : list Paper) (fs : list (string * list row)) :
  io_for_each print l (mkProcess lvl lg pr fs) = (mkProcess lvl lg (pr ++ l) fs, Normal tt).
Proof.
  revert pr; induction l as [|p l IH]; intros pr; simpl.
  - now rewrite app_nil_r.
  - unfold io_bind, print at 1. simpl. rewrite IH. now rewrite <- app_assoc.
Qed.

Lemma dict_to_list_fields (paper : Paper) :
  map fst paper = FIELDS -> dict_to_list FIELDS paper = Ok (row_of paper).
Proof.
  intros H. unfold FIELDS in H.
  repeat (destruct paper as [|[? ?] paper]; simpl in H; [discriminate H |];
          injection H as -> H).
  destruct paper; [reflexivity | simpl in H; discriminate H].
Qed.

Lemma io_for_each_rows (l : list Paper) (f : string) (lvl : Z) (lg : list (Z * message))
      (pr : list Paper) (rows : list row) :
  Forall (fun p => map fst p = FIELDS) l ->
  io_for_each
    (fun paper => (r <- lift (dict_to_list FIELDS paper) ;; writerow f r)%io) l
    (mkProcess lvl lg pr [(f, rows)]) =
  (mkProcess lvl lg pr [(f, rows ++ map row_of l)], Normal tt).
Proof.
  revert rows; induction l as [|p l IH]; intros rows H; simpl.
  - now rewrite app_nil_r.
  - inversion H as [|? ? Hp Hl]; subst.
    unfold io_bind at 1 2, lift, writerow. rewrite (dict_to_list_fields _ Hp). simpl.
    rewrite String.eqb_refl. rewrite (IH _ Hl). now rewrite <- app_assoc.
Qed.

Lemma save_to_csv_fields (writable : string -> bool) (p : Paper) (ps : list Paper)
      (f : string) (lvl : Z) (lg : list (Z * message)) (pr : list Paper) :
  Forall (fun q => map fst q = FIELDS) (p :: ps) ->
  save_to_csv writable (p :: ps) f (mkProcess lvl lg pr []) =
    if writable f
    then (mkProcess lvl lg pr [(f, map JStr FIELDS :: map row_of (p :: ps))], Normal tt)
    else (mkProcess lvl lg pr [], Raised OSError).
Proof.
  intros H. unfold save_to_csv, io_bind at 1, open_w. simpl.
  destruct (writable f); [| reflexivity].
  unfold io_bind at 1, lift at 1. simpl.
  inversion H as [|? ? Hp Hl]; subst. rewrite Hp.
  unfold io_bind at 1, writerow at 1. simpl. rewrite String.eqb_refl.
  apply (io_for_each_rows (p :: ps) f lvl lg pr [map JStr FIELDS] H).
Qed.

(** A run of [main] from the initial process ends as [outcome] says. *)
Lemma main_outcome (get : transport) (writable : string -> bool) (args : arguments) :
  main get writable args initial = outcome get writable args.
Proof.
  unfold main, outcome.
  destruct (debug args);
    unfold io_bind, try_except, setLevel, io_ret, log, lift, sys_exit, initial;
    cbn -[io_for_each save_to_csv];
    (destruct (fetch_pubmed_ids get (query args)) as [ids|e];
       cbn -[io_for_each save_to_csv]; [| reflexivity]);
    (destruct (fetch_paper_details get ids) as [ps|e] eqn:Eps;
       cbn -[io_for_each save_to_csv]; [| reflexivity]);
    (destruct ps as [|p ps]; cbn -[io_for_each save_to_csv]; [reflexivity |]);
    destruct (fetch_paper_details_inv _ _ _ Eps) as [l [_ [Hk _]]];
    (destruct (file_given args) as [f|]; cbn -[io_for_each save_to_csv];
       [ rewrite (save_to_csv_fields writable p ps f _ _ _ Hk);
         destruct (writable f); reflexivity
       | rewrite io_for_each_print; reflexivity ]).
Qed.

(** ** The classifier *)

Lemma not_academic_empty : ~ academic "".
Proof.
  apply (non_academic_true_iff (JDict [])). reflexivity.
Qed.

(** The keywords in other cases, read off the definition of [academic]
    and off the search. *)
Example academic_capitals : academic "HARVARD UNIVERSITY".
Proof.
  exists "university", "UNIVERSITY". split; [simpl; tauto |]. split.
  - apply (spells_cons "u" _ "U"); [simpl; tauto |].
    apply (spells_cons "n" _ "N"); [simpl; tauto |].
    apply (spells_cons "i" _ "I"); [simpl; tauto |].
    apply (spells_cons "v" _ "V"); [simpl; tauto |].
    apply (spells_cons "e" _ "E"); [simpl; tauto |].
    apply (spells_cons "r" _ "R"); [simpl; tauto |].
    apply (spells_cons "s" _ "S"); [simpl; tauto |].
    apply (spells_cons "i" _ "I"); [simpl; tauto |].
    apply (spells_cons "t" _ "T"); [simpl; tauto |].
    apply (spells_cons "y" _ "Y" ""); [simpl; tauto |].
    constructor.
  - now exists "HARVARD ", "".
Qed.

Example academic_dotless_i : academic "Unıversity".
Proof.
  exists "university", "Unıversity". split; [simpl; tauto |]. split.
  - apply (spells_cons "u" _ "U"); [simpl; tauto |].
    apply (spells_cons "n" _ "n"); [simpl; tauto |].
    apply (spells_cons "i" _ "ı"); [simpl; tauto |].
    apply (spells_cons "v" _ "v"); [simpl; tauto |].
    apply (spells_cons "e" _ "e"); [simpl; tauto |].
    apply (spells_cons "r" _ "r"); [simpl; tauto |].
    apply (spells_cons "s" _ "s"); [simpl; tauto |].
    apply (spells_cons "i" _ "i"); [simpl; tauto |].
    apply (spells_cons "t" _ "t"); [simpl; tauto |].
    apply (spells_cons "y" _ "y" ""); [simpl; tauto |].
    constructor.
  - now exists "", "".
Qed.

Example search_in_any_case :
  re_search PATTERN (JStr "HARVARD UNIVERSITY") = Ok (Some (8, 18)%nat) /\
  re_search PATTERN (JStr "Elaboration Ltd") = Ok (Some (1, 4)%nat) /\
  re_search PATTERN (JStr "Unıversity") = Ok (Some (0, 10)%nat) /\
  re_search PATTERN (JStr "İnstitute") = Ok (Some (0, 9)%nat) /\
  re_search PATTERN (JStr "café ſchool") = Ok (Some (5, 11)%nat) /\
  re_search PATTERN (JStr "Acme Biotech Inc.") = Ok None /\
  re_search PATTERN (JStr "") = Ok None.
Proof. repeat split. Qed.

(** C1.  An author record whose affiliation contains, as a plain
    substring and whatever the case of its letters, one of university,
    college, institute, lab, school is skipped by the loop of lines
    51-56; every other author record, the one with the empty affiliation
    included, has its name and its affiliation appended.  A letter of a
    keyword counts in its small and its capital form and in the forms
    that share a case form with it: U+0130 and U+0131 for i, U+017F for
    s.  The two lists the loop builds are the names and the affiliations
    of the same authors, the non-academic ones, in the order of the
    input. *)
Theorem classification_by_keywords (authors : list json) (ps : list Paper) :
  forallb author_record authors = true ->
  (forall a st, In a authors ->
     (academic (affiliation_of a) -> author_step st a = Ok st) /\
     (~ academic (affiliation_of a) ->
        author_step st a =
          Ok (mkFrame (papers st)
                (non_academic_authors st ++ [JStr (name_of a)])
                (companies st ++ [JStr (affiliation_of a)])))) /\
  ~ academic "" /\
  exists chosen,
    chosen = filter non_academic authors /\
    (forall a, In a chosen <-> In a authors /\ ~ academic (affiliation_of a)) /\
    for_each author_step (mkFrame ps [] []) authors =
      Ok (mkFrame ps
            (map (fun a => JStr (name_of a)) chosen)
            (map (fun a => JStr (affiliation_of a)) chosen)).
Proof.
  intros H. split; [| split].
  - intros a st Hin.
    assert (Ha : author_record a = true).
    { rewrite forallb_forall in H. now apply H. }
    rewrite (author_step_record st a Ha). split.
    + intros Hac. apply non_academic_iff in Hac. now rewrite Hac.
    + intros Hna. apply non_academic_true_iff in Hna. now rewrite Hna.
  - exact not_academic_empty.
  - exists (filter non_academic authors). split; [reflexivity |]. split.
    + intros a. rewrite filter_In, non_academic_true_iff. reflexivity.
    + apply (for_each_author_step authors ps [] [] H).
Qed.

Lemma classification_by_keywords_witness :
  forallb author_record sample_authors = true /\
  exists chosen,
    chosen = filter non_academic sample_authors /\
    (forall a, In a chosen <-> In a sample_authors /\ ~ academic (affiliation_of a)) /\
    for_each author_step (mkFrame [] [] []) sample_authors =
      Ok (mkFrame []
            (map (fun a => JStr (name_of a)) chosen)
            (map (fun a => JStr (affiliation_of a)) chosen)).
Proof.
  split; [reflexivity |].
  apply (classification_by_keywords sample_authors []). reflexivity.
Defined.

(** The scenarios of the specification. *)
Example sample_classification :
  for_each author_step (mkFrame [] [] []) sample_authors =
    Ok (mkFrame [] [JStr "J. Doe"; JStr "B. Lee"] [JStr "Acme Biotech Inc."; JStr ""]).
Proof. reflexivity. Qed.

Lemma paper_step_frame (summaries pid : json) (ps : list Paper) (na co : list json) :
  match paper_step summaries (mkFrame [] [] []) pid with
  | Ok out =>
      paper_step summaries (mkFrame ps na co) pid =
        Ok (mkFrame (ps ++ papers out) (non_academic_authors out) (companies out))
  | Raise e => paper_step summaries (mkFrame ps na co) pid = Raise e
  end.
Proof.
  unfold paper_step.
  destruct (py_get_key summaries pid (JDict [])) as [summary|e]; simpl; [| reflexivity].
  destruct (py_get summary "title" JNull) as [title|e]; simpl; [| reflexivity].
  destruct (py_get summary "pubdate" JNull) as [pubdate|e]; simpl; [| reflexivity].
  destruct (py_get summary "authors" (JList [])) as [authors|e]; simpl; [| reflexivity].
  destruct (py_get summary "elocationid" (JStr "")) as [email|e]; simpl; [| reflexivity].
  destruct (py_iter authors) as [items|e]; simpl; [| reflexivity].
  pose proof (for_each_author_step_frame items ps [] []) as F.
  destruct (for_each author_step (mkFrame [] [] []) items) as [out|e]; simpl.
  - destruct F as [F Hp]. rewrite F. simpl.
    destruct out as [ps' na' co']. simpl in *. subst ps'.
    destruct (join_list "; " na') as [names|e]; simpl; [| reflexivity].
    destruct (join_list "; " co') as [affs|e]; simpl; reflexivity.
  - rewrite F. reflexivity.
Qed.

(** C7.  The classifier is a function of the author list alone.  Run from
    any frame, the loop over the authors appends to the two lists exactly
    what it produces from the empty frame, raises exactly when it raises
    there, and leaves the papers collected so far as they are; and the
    record and the two lists that the body of the outer loop produces for
    an identifier do not depend on what the previous iteration left in
    the frame. *)
Theorem classifier_is_pure (authors : list json) (summaries pid : json)
        (ps : list Paper) (na co : list json) :
  match for_each author_step (mkFrame [] [] []) authors with
  | Ok out =>
      for_each author_step (mkFrame ps na co) authors =
        Ok (mkFrame ps (na ++ non_academic_authors out) (co ++ companies out)) /\
      papers out = []
  | Raise e => for_each author_step (mkFrame ps na co) authors = Raise e
  end /\
  match paper_step summaries (mkFrame [] [] []) pid with
  | Ok out =>
      paper_step summaries (mkFrame ps na co) pid =
        Ok (mkFrame (ps ++ papers out) (non_academic_authors out) (companies out))
  | Raise e => paper_step summaries (mkFrame ps na co) pid = Raise e
  end.
Proof.
  split; [apply for_each_author_step_frame | apply paper_step_frame].
Qed.

(** ** The records *)

Lemma record_of_absent (res : list (string * json)) (pid : string) :
  lookup pid res = None -> record_of res pid = empty_record pid.
Proof.
  intros H. unfold record_of, summary_of, dict_get. rewrite H. reflexivity.
Qed.

Lemma concat_empty_iff (l : list string) :
  String.concat "; " l = "" <-> l = [] \/ l = [""].
Proof.
  destruct l as [|x [|y l]]; simpl.
  - split; [now left | reflexivity].
  - split.
    + intros ->. now right.
    + intros [H | H]; [discriminate | now injection H].
  - split.
    + destruct x; discriminate.
    + intros [H | H]; discriminate.
Qed.

Lemma map_single {A B : Type} (f : A -> B) (l : list A) (b : B) :
  map f l = [b] <-> exists a, l = [a] /\ f a = b.
Proof.
  destruct l as [|a [|a' l]]; simpl; split.
  - discriminate.
  - intros [a [H _]]. discriminate.
  - intros H. injection H as H. now exists a.
  - intros [a0 [H1 H2]]. injection H1 as ->. now rewrite H2.
  - discriminate.
  - intros [a0 [H _]]. discriminate.
Qed.

Lemma joined_empty_iff {A : Type} (f : A -> string) (l : list A) :
  String.concat "; " (map f l) = "" <-> l = [] \/ exists a, l = [a] /\ f a = "".
Proof.
  rewrite concat_empty_iff, map_single.
  split; (intros [E | E]; [left | now right]).
  - now apply map_eq_nil in E.
  - now rewrite E.
Qed.

Lemma or_None_cases (s : string) :
  or_None s = if String.eqb s "" then JNull else JStr s.
Proof.
  unfold or_None, py_or. simpl. now destruct (String.eqb s "").
Qed.

Section Records.

(** The identifiers [ids] are looked up in a response of the data model
    whose [result] object is [res]. *)
Variable get : transport.
Variable ids : list string.
Variable res : list (string * json).
Hypothesis served : serves get ids res.

Lemma served_records :
  fetch_paper_details get (JList (map JStr ids)) = Ok (map (record_of res) ids).
Proof.
  now apply fetch_paper_details_records.
Qed.

(** C2.  On a response of the data model, [fetch_paper_details] returns
    one record per identifier, in the order of the identifiers: the two
    lists have the same length and the i-th record carries the i-th
    identifier.  An identifier that the response does not know still has
    its record, whose five other fields are null. *)
Theorem one_record_per_identifier :
  exists papers,
    fetch_paper_details get (JList (map JStr ids)) = Ok papers /\
    length papers = length ids /\
    forall i pid, nth_error ids i = Some pid ->
      exists p,
        nth_error papers i = Some p /\
        lookup "PubmedID" p = Some (JStr pid) /\
        (lookup pid res = None ->
           p = [("PubmedID", JStr pid);
                ("Title", JNull);
                ("Publication Date", JNull);
                ("Non-academic Author(s)", JNull);
                ("Company Affiliation(s)", JNull);
                ("Corresponding Author Email", JNull)]).
Proof.
  exists (map (record_of res) ids).
  split; [exact served_records |].
  split; [apply length_map |].
  intros i pid Hi. exists (record_of res pid).
  split; [now apply map_nth_error |]. split; [reflexivity |].
  intros Habs. now rewrite record_of_absent.
Qed.

(** C3, amended.  The two author fields of a record are the names and the
    affiliations of the same authors, the non-academic ones in input
    order, each list joined with "; ".  A field is null exactly when its
    joined string is empty, and is never the empty string.  The joined
    names are empty exactly when there is no non-academic author or there
    is one alone and its name is empty; likewise for the affiliations. *)
Theorem author_fields_joined :
  exists papers,
    fetch_paper_details get (JList (map JStr ids)) = Ok papers /\
    forall i pid, nth_error ids i = Some pid ->
      exists p chosen names affiliations,
        nth_error papers i = Some p /\
        chosen = filter non_academic (authors_of (summary_of res pid)) /\
        (forall a, In a chosen <->
           In a (authors_of (summary_of res pid)) /\ ~ academic (affiliation_of a)) /\
        names = String.concat "; " (map name_of chosen) /\
        affiliations = String.concat "; " (map affiliation_of chosen) /\
        lookup "Non-academic Author(s)" p =
          Some (if String.eqb names "" then JNull else JStr names) /\
        lookup "Company Affiliation(s)" p =
          Some (if String.eqb affiliations "" then JNull else JStr affiliations) /\
        (names = "" <-> chosen = [] \/ exists a, chosen = [a] /\ name_of a = "") /\
        (affiliations = "" <->
           chosen = [] \/ exists a, chosen = [a] /\ affiliation_of a = "").
Proof.
  exists (map (record_of res) ids).
  split; [exact served_records |].
  intros i pid Hi.
  exists (record_of res pid), (filter non_academic (authors_of (summary_of res pid))).
  do 2 eexists.
  split; [now apply map_nth_error |]. split; [reflexivity |].
  split; [intros a; rewrite filter_In, non_academic_true_iff; reflexivity |].
  split; [reflexivity |]. split; [reflexivity |].
  split; [simpl; now rewrite or_None_cases |].
  split; [simpl; now rewrite or_None_cases |].
  split; apply joined_empty_iff.
Qed.

(** C6.  The e-mail field of a record is the [elocationid] of the
    summary; it is null when the summary has no such field and when the
    field is the empty string. *)
Theorem email_from_elocationid :
  exists papers,
    fetch_paper_details get (JList (map JStr ids)) = Ok papers /\
    forall i pid, nth_error ids i = Some pid ->
      exists p,
        nth_error papers i = Some p /\
        match lookup "elocationid" (summary_of res pid) with
        | None => lookup "Corresponding Author Email" p = Some JNull
        | Some v =>
            lookup "Corresponding Author Email" p = Some (if truthy v then v else JNull) /\
            forall s, v = JStr s ->
              lookup "Corresponding Author Email" p =
                Some (if String.eqb s "" then JNull else JStr s)
        end.
Proof.
  exists (map (record_of res) ids).
  split; [exact served_records |].
  intros i pid Hi. exists (record_of res pid).
  split; [now apply map_nth_error |].
  unfold record_of. simpl. unfold dict_get.
  destruct (lookup "elocationid" (summary_of res pid)) as [v|]; [| reflexivity].
  split; [reflexivity |]. intros s ->.
  unfold py_or. simpl. now destruct (String.eqb s "").
Qed.

End Records.

Lemma sample_serves : serves sample_get ["1"; "2"; "3"] sample_result.
Proof.
  exists 200%Z, [("header", JDict []); ("result", JDict sample_result)].
  repeat split; reflexivity.
Qed.

Lemma one_record_per_identifier_witness :
  serves sample_get ["1"; "2"; "3"] sample_result /\
  exists papers,
    fetch_paper_details sample_get (JList (map JStr ["1"; "2"; "3"])) = Ok papers /\
    length papers = 3%nat /\
    nth_error papers 2 =
      Some [("PubmedID", JStr "3");
            ("Title", JNull);
            ("Publication Date", JNull);
            ("Non-academic Author(s)", JNull);
            ("Company Affiliation(s)", JNull);
            ("Corresponding Author Email", JNull)].
Proof.
  split; [exact sample_serves |].
  destruct (one_record_per_identifier sample_get ["1"; "2"; "3"] sample_result sample_serves)
    as [papers [E [L H]]].
  exists papers. split; [exact E |]. split; [exact L |].
  destruct (H 2%nat "3" eq_refl) as [p [Hp [_ Habs]]].
  rewrite Hp. f_equal. apply Habs. reflexivity.
Defined.

Lemma author_fields_joined_witness :
  serves sample_get ["1"; "2"; "3"] sample_result /\
  exists papers,
    fetch_paper_details sample_get (JList (map JStr ["1"; "2"; "3"])) = Ok papers /\
    exists p, nth_error papers 0 = Some p /\
      lookup "Non-academic Author(s)" p = Some (JStr "J. Doe; B. Lee") /\
      lookup "Company Affiliation(s)" p = Some (JStr "Acme Biotech Inc.; ").
Proof.
  split; [exact sample_serves |].
  destruct (author_fields_joined sample_get ["1"; "2"; "3"] sample_result sample_serves)
    as [papers [E H]].
  exists papers. split; [exact E |].
  destruct (H 0%nat "1" eq_refl) as [p [chosen [names [affs [Hp [Hc [_ [Hn [Ha [L1 [L2 _]]]]]]]]]]].
  exists p. split; [exact Hp |].
  subst chosen. subst names. subst affs. split; [exact L1 | exact L2].
Defined.

(** C3 as stated fails: the summary of "2" has one author, who is
    non-academic and has the empty affiliation; the record names the
    author and its affiliation field is null. *)
Lemma author_fields_counterexample :
  exists p,
    fetch_paper_details sample_get (JList [JStr "2"]) = Ok [p] /\
    filter non_academic (authors_of (summary_of sample_result "2")) =
      [JDict [("name", JStr "J. Doe"); ("affiliation", JStr "")]] /\
    lookup "Non-academic Author(s)" p = Some (JStr "J. Doe") /\
    lookup "Company Affiliation(s)" p = Some JNull.
Proof.
  eexists. split; [reflexivity |]. repeat split.
Qed.

Lemma email_from_elocationid_witness :
  serves sample_get ["1"; "2"; "3"] sample_result /\
  exists papers,
    fetch_paper_details sample_get (JList (map JStr ["1"; "2"; "3"])) = Ok papers /\
    (exists p, nth_error papers 0 = Some p /\
       lookup "Corresponding Author Email" p = Some (JStr "doi: 10.1000/x")) /\
    (exists p, nth_error papers 1 = Some p /\
       lookup "Corresponding Author Email" p = Some JNull) /\
    (exists p, nth_error papers 2 = Some p /\
       lookup "Corresponding Author Email" p = Some JNull).
Proof.
  split; [exact sample_serves |].
  destruct (email_from_elocationid sample_get ["1"; "2"; "3"] sample_result sample_serves)
    as [papers [E H]].
  exists papers. split; [exact E |].
  split; [| split].
  - destruct (H 0%nat "1" eq_refl) as [p [Hp [_ He]]].
    exists p. split; [exact Hp |]. exact (He _ eq_refl).
  - destruct (H 1%nat "2" eq_refl) as [p [Hp [_ He]]].
    exists p. split; [exact Hp |]. exact (He _ eq_refl).
  - destruct (H 2%nat "3" eq_refl) as [p [Hp He]].
    exists p. split; [exact Hp | exact He].
Defined.

(** C9.  Whenever [fetch_paper_details] returns, its argument iterates
    to a sequence of strings, there are as many records as strings, and
    the [PubmedID] of the i-th record is the i-th string itself, hence
    not null; this holds whatever the response says about the
    identifier.  Each of the five other fields can be null: they all are
    in the record of an identifier the response does not know. *)
Theorem pubmed_id_never_null (get : transport) (paper_ids : json) (papers : list Paper) :
  fetch_paper_details get paper_ids = Ok papers ->
  (exists ids,
     py_iter paper_ids = Ok (map JStr ids) /\
     length papers = length ids /\
     forall i pid, nth_error ids i = Some pid ->
       exists p,
         nth_error papers i = Some p /\
         lookup "PubmedID" p = Some (JStr pid) /\
         dict_get p "PubmedID" JNull <> JNull) /\
  (exists p,
     fetch_paper_details sample_get (JList [JStr "3"]) = Ok [p] /\
     lookup "PubmedID" p = Some (JStr "3") /\
     forall f,
       In f ["Title"; "Publication Date"; "Non-academic Author(s)";
             "Company Affiliation(s)"; "Corresponding Author Email"] ->
       lookup f p = Some JNull).
Proof.
  intros H. split.
  - destruct (fetch_paper_details_inv _ _ _ H) as [ids [Hit [_ Hp]]].
    exists ids. split; [exact Hit |]. split.
    + apply (f_equal (@length _)) in Hp. now rewrite !length_map in Hp.
    + intros i pid Hi.
      apply (map_nth_error (fun pid => Some (JStr pid))) in Hi.
      rewrite <- Hp, nth_error_map in Hi.
      unfold Paper in *.
      destruct (nth_error papers i) as [p|] in Hi |- *; [| simpl in Hi; discriminate Hi].
      simpl in Hi. injection Hi as Hi. exists p.
      split; [reflexivity |]. split; [exact Hi |].
      unfold dict_get. rewrite Hi. discriminate.
  - eexists. split; [reflexivity |]. split; [reflexivity |].
    intros f Hin. simpl in Hin.
    repeat (destruct Hin as [<- | Hin]; [reflexivity |]). destruct Hin.
Qed.

Lemma pubmed_id_never_null_witness :
  fetch_paper_details sample_get sample_idlist =
    Ok (map (record_of sample_result) ["1"; "2"; "3"]) /\
  exists ids,
    py_iter sample_idlist = Ok (map JStr ids) /\
    length (map (record_of sample_result) ["1"; "2"; "3"]) = length ids.
Proof.
  split; [reflexivity |].
  destruct (pubmed_id_never_null sample_get sample_idlist
              (map (record_of sample_result) ["1"; "2"; "3"]) eq_refl)
    as [[ids [Hit [Hl _]]] _].
  exists ids. split; [exact Hit | exact Hl].
Defined.

(** ** Exceptions that cannot occur before the sink *)

Lemma py_get_no_index (v : json) (k : string) (default : json) :
  py_get v k default = Raise IndexError -> False.
Proof. destruct v; discriminate. Qed.

Lemma py_get_key_no_index (v key default : json) :
  py_get_key v key default = Raise IndexError -> False.
Proof. destruct v; try discriminate. destruct key; discriminate. Qed.

Lemma py_iter_no_index (v : json) : py_iter v = Raise IndexError -> False.
Proof. destruct v; discriminate. Qed.

Lemma strings_of_no_index (items : list json) :
  strings_of items = Raise IndexError -> False.
Proof.
  induction items as [|v items IH]; simpl; [discriminate |].
  destruct v; try discriminate.
  destruct (strings_of items); simpl; [discriminate | exact IH].
Qed.

Lemma re_search_no_index (alts : list string) (v : json) :
  re_search alts v = Raise IndexError -> False.
Proof. destruct v; discriminate. Qed.

Lemma requests_get_no_index (get : transport) (r : request) :
  requests_get get r = Raise IndexError -> False.
Proof. unfold requests_get. destruct (get r); discriminate. Qed.

Lemma raise_for_status_no_index (r : response) :
  raise_for_status r = Raise IndexError -> False.
Proof. unfold raise_for_status. destruct (_ && _); discriminate. Qed.

Lemma response_json_no_index (r : response) :
  response_json r = Raise IndexError -> False.
Proof. unfold response_json. destruct (body r); discriminate. Qed.

#[local] Hint Resolve py_get_no_index py_get_key_no_index py_iter_no_index
  strings_of_no_index re_search_no_index requests_get_no_index
  raise_for_status_no_index response_json_no_index : no_index.

Lemma join_list_no_index (sep : string) (items : list json) :
  join_list sep items = Raise IndexError -> False.
Proof.
  unfold join_list. intros H. raise_inv H. discriminate.
Qed.

#[local] Hint Resolve join_list_no_index : no_index.

Lemma py_join_no_index (sep : string) (v : json) :
  py_join sep v = Raise IndexError -> False.
Proof.
  unfold py_join. intros H. raise_inv H. eauto with no_index.
Qed.

#[local] Hint Resolve py_join_no_index : no_index.

Lemma for_each_no_raise {S A : Type} (body : S -> A -> result S) (e : exn) :
  (forall st x, body st x = Raise e -> False) ->
  forall items st, for_each body st items = Raise e -> False.
Proof.
  intros Hb items. induction items as [|x items IH]; intros st; simpl.
  - discriminate.
  - destruct (body st x) as [st'|e'] eqn:E; simpl.
    + apply IH.
    + intros H. injection H as ->. now apply (Hb st x).
Qed.

Lemma author_step_no_index (st : frame) (a : json) :
  author_step st a = Raise IndexError -> False.
Proof.
  unfold author_step. intros H. raise_inv H.
  destruct (is_none _) in H; discriminate.
Qed.

Lemma author_loop_no_index (st : frame) (authors : list json) :
  for_each author_step st authors = Raise IndexError -> False.
Proof.
  apply for_each_no_raise. exact author_step_no_index.
Qed.

#[local] Hint Resolve author_loop_no_index : no_index.

Lemma paper_step_no_index (summaries : json) (st : frame) (pid : json) :
  paper_step summaries st pid = Raise IndexError -> False.
Proof.
  unfold paper_step. intros H. raise_inv H. discriminate.
Qed.

Lemma paper_loop_no_index (summaries : json) (st : frame) (items : list json) :
  for_each (paper_step summaries) st items = Raise IndexError -> False.
Proof.
  apply for_each_no_raise. exact (paper_step_no_index summaries).
Qed.

#[local] Hint Resolve paper_loop_no_index : no_index.



(** ** The runs of the program *)





Lemma fetch_no_identifiers (get : transport) :
  fetch_paper_details get (JList []) =
    match get (summary_request "") with
    | None => Raise RequestException
    | Some r =>
        if (400 <=? status_code r)%Z && (status_code r <? 600)%Z then Raise HTTPError
        else match body r with
             | None => Raise JSONDecodeError
             | Some (JDict _) => Ok []
             | Some _ => Raise AttributeError
             end
    end.
Proof.
  unfold fetch_paper_details, requests_get, raise_for_status, response_json. simpl.
  destruct (get (summary_request "")) as [r|]; simpl; [| reflexivity].
  destruct ((400 <=? status_code r)%Z && (status_code r <? 600)%Z); simpl; [reflexivity |].
  destruct (body r) as [v|]; simpl; [| reflexivity].
  destruct v; reflexivity.
Qed.

(** C5, amended.  When the search yields no identifier the summary
    service is asked all the same, with the empty identifier list, and
    no file is opened and nothing is printed, whether or not a file name
    was given.  If the service answers with a status outside 400-599 and
    a JSON object, the run logs the warning, logs no error and exits
    with code 0.  If the request fails, which is every other case (no
    answer, a status from 400 to 599, a body that is not JSON or not an
    object), the run logs an error record as its last record, does not
    log the warning and exits with code 1. *)
Theorem no_identifiers_exit_zero (get : transport) (writable : string -> bool)
        (args : arguments) :
  fetch_pubmed_ids get (query args) = Ok (JList []) ->
  let p := fst (run get writable args) in
  let code := snd (run get writable args) in
  let answered :=
    exists r top,
      get (summary_request "") = Some r /\ ~ error_status (status_code r) /\
      body r = Some (JDict top) in
  let failed :=
    get (summary_request "") = None \/
    exists r,
      get (summary_request "") = Some r /\
      (error_status (status_code r) \/ body r = None \/
       exists v, body r = Some v /\ is_dict v = false) in
  files p = [] /\ printed p = [] /\
  (answered \/ failed) /\
  (answered ->
     code = 0%Z /\ In (WARNING, NoPapersFound) (logged p) /\
     ~ exists e, In (ERROR, ErrorOccurred e) (logged p)) /\
  (failed ->
     code = 1%Z /\ ~ In (WARNING, NoPapersFound) (logged p) /\
     exists l e, logged p = l ++ [(ERROR, ErrorOccurred e)]).
Proof.
  intros Hids p code answered failed. subst p code answered failed.
  unfold run. rewrite main_outcome. unfold outcome.
  rewrite Hids, fetch_no_identifiers.
  assert (WithError : forall (l : list (Z * message)) e,
            Forall (fun r => snd r <> NoPapersFound) l ->
            ~ In (WARNING, NoPapersFound) (l ++ [(ERROR, ErrorOccurred e)])).
  { intros l e Hl Hin. apply in_app_or in Hin. destruct Hin as [Hin | [Hin | []]].
    - rewrite Forall_forall in Hl. now apply (Hl _ Hin).
    - discriminate. }
  assert (Log1 : Forall (fun r : Z * message => snd r <> NoPapersFound)
                   ([(INFO, FetchingIds (query args))] ++
                    (if debug args then [(DEBUG, FoundIds (JList []))] else []) ++
                    [(INFO, FetchingDetails)])).
  { destruct (debug args); repeat constructor; discriminate. }
  destruct (get (summary_request "")) as [r|] eqn:Eg.
  2:{ cbn [fst snd logged printed files exit_code].
      split; [reflexivity |]. split; [reflexivity |].
      split; [right; now left |]. split.
      - intros [r [top [H _]]]. discriminate.
      - intros _. split; [reflexivity |]. split; [now apply WithError |]. now eexists _, _. }
  destruct ((400 <=? status_code r)%Z && (status_code r <? 600)%Z) eqn:Es.
  { assert (Hs : error_status (status_code r)).
    { apply andb_true_iff in Es. destruct Es as [E1 E2].
      apply Z.leb_le in E1. apply Z.ltb_lt in E2. now split. }
    cbn [fst snd logged printed files exit_code].
    split; [reflexivity |]. split; [reflexivity |].
    split; [right; right; exists r; split; [reflexivity | now left] |]. split.
    - intros [r' [top [H [Hn _]]]]. injection H as <-. contradiction.
    - intros _. split; [reflexivity |]. split; [now apply WithError |]. now eexists _, _. }
  assert (Hs : ~ error_status (status_code r)).
  { intros [E1 E2]. apply Z.leb_le in E1. apply Z.ltb_lt in E2.
    rewrite E1, E2 in Es. discriminate. }
  destruct (body r) as [v|] eqn:Eb.
  2:{ cbn [fst snd logged printed files exit_code].
      split; [reflexivity |]. split; [reflexivity |].
      split; [right; right; exists r; split; [reflexivity | right; now left] |]. split.
      - intros [r' [top [H [_ Hb]]]]. injection H as <-. congruence.
      - intros _. split; [reflexivity |]. split; [now apply WithError |]. now eexists _, _. }
  destruct v as [| | | | |top];
    try (cbn [fst snd logged printed files exit_code];
         split; [reflexivity |]; split; [reflexivity |];
         split; [right; right; exists r; split; [reflexivity |]; right; right;
                 eexists; split; [exact Eb | reflexivity] |];
         split;
         [ intros [r' [top [H [_ Hb]]]]; injection H as <-; rewrite Eb in Hb; discriminate
         | intros _; split; [reflexivity |]; split; [now apply WithError |];
           now eexists _, _ ]).
  cbn [fst snd logged printed files exit_code].
  split; [reflexivity |]. split; [reflexivity |].
  split; [left; now exists r, top |]. split.
  - intros _. split; [reflexivity |]. split.
    + apply in_or_app. right. now left.
    + intros [e He]. apply in_app_or in He. destruct He as [He | [He | []]].
      * destruct (debug args); simpl in He;
          repeat (destruct He as [He | He]; [discriminate He |]); exact He.
      * discriminate.
  - intros [Hn | [r' [H [He | [Hb | [v [Hb Hv]]]]]]].
    + discriminate.
    + injection H as <-. contradiction.
    + injection H as <-. congruence.
    + injection H as <-. rewrite Eb in Hb. injection Hb as <-. discriminate.
Qed.

Lemma no_identifiers_exit_zero_witness :
  (fetch_pubmed_ids empty_get "q" = Ok (JList []) /\
   snd (run empty_get (fun _ => true) (mkArguments "q" false (Some "out.csv"))) = 0%Z /\
   files (fst (run empty_get (fun _ => true) (mkArguments "q" false (Some "out.csv")))) = []) /\
  (fetch_pubmed_ids refusing_get "q" = Ok (JList []) /\
   snd (run refusing_get (fun _ => true) (mkArguments "q" false (Some "out.csv"))) = 1%Z /\
   files (fst (run refusing_get (fun _ => true) (mkArguments "q" false (Some "out.csv")))) = []).
Proof.
  split.
  - split; [reflexivity |].
    destruct (no_identifiers_exit_zero empty_get (fun _ => true)
                (mkArguments "q" false (Some "out.csv")) eq_refl)
      as [Hf [_ [_ [H _]]]].
    split; [| exact Hf]. apply H.
    exists (mkResponse 200
              (Some (JDict [("esummaryresult", JList [JStr "Empty id list - nothing todo"])]))),
      [("esummaryresult", JList [JStr "Empty id list - nothing todo"])].
    split; [reflexivity |]. split; [unfold error_status; simpl; lia | reflexivity].
  - split; [reflexivity |].
    destruct (no_identifiers_exit_zero refusing_get (fun _ => true)
                (mkArguments "q" false (Some "out.csv")) eq_refl)
      as [Hf [_ [_ [_ H]]]].
    split; [| exact Hf]. apply H.
    right. exists (mkResponse 400 None). split; [reflexivity |].
    left. unfold error_status. simpl. lia.
Defined.

(** C5 as stated fails: the search yields no identifier, the summary
    service refuses the request that is sent all the same, and the run
    logs an error instead of the warning and exits with code 1. *)
Lemma no_identifiers_counterexample :
  fetch_pubmed_ids refusing_get "q" = Ok (JList []) /\
  run refusing_get (fun _ => true) (mkArguments "q" false None) =
    (mkProcess INFO
       [(INFO, FetchingIds "q"); (INFO, FetchingDetails); (ERROR, ErrorOccurred HTTPError)]
       [] [],
     1%Z).
Proof.
  split; reflexivity.
Qed.

(** C8, amended.  The one request of the resolver asks for [retmax] 20.
    When the response is a success with a JSON object, the resolver
    returns the value at [esearchresult.idlist] as it is, in the order
    and the length the server gave it, and the empty list when the object
    has no [esearchresult] or that has no [idlist]. *)
Theorem idlist_as_served (get : transport) (q : string) (code : Z)
        (data : list (string * json)) :
  get (search_request q) = Some (mkResponse code (Some (JDict data))) ->
  (code < 400 \/ 600 <= code)%Z ->
  params (search_request q) =
    [("db", PStr "pubmed"); ("term", PStr q); ("retmax", PInt 20); ("retmode", PStr "json")] /\
  (forall get',
     get' (search_request q) = get (search_request q) ->
     fetch_pubmed_ids get' q = fetch_pubmed_ids get q) /\
  (forall e v,
     lookup "esearchresult" data = Some (JDict e) -> lookup "idlist" e = Some v ->
     fetch_pubmed_ids get q = Ok v) /\
  (lookup "esearchresult" data = None -> fetch_pubmed_ids get q = Ok (JList [])) /\
  (forall e,
     lookup "esearchresult" data = Some (JDict e) -> lookup "idlist" e = None ->
     fetch_pubmed_ids get q = Ok (JList [])).
Proof.
  intros Hget Hcode.
  assert (Hs : ((400 <=? code)%Z && (code <? 600)%Z) = false).
  { apply andb_false_iff. destruct Hcode; [left | right]; lia. }
  split; [reflexivity |].
  split; [intros get' E; unfold fetch_pubmed_ids, requests_get; now rewrite E |].
  unfold fetch_pubmed_ids, requests_get, raise_for_status. rewrite Hget. simpl.
  rewrite Hs. simpl. unfold dict_get.
  split; [| split].
  - intros e v He Hv. rewrite He. simpl. unfold dict_get. now rewrite Hv.
  - intros He. now rewrite He.
  - intros e He Hv. rewrite He. simpl. unfold dict_get. now rewrite Hv.
Qed.

Lemma idlist_as_served_witness :
  sample_get (search_request "q") =
    Some (mkResponse 200
            (Some (JDict [("header", JDict []);
                          ("esearchresult", JDict [("count", JStr "3");
                                                   ("idlist", sample_idlist)])]))) /\
  fetch_pubmed_ids sample_get "q" = Ok sample_idlist.
Proof.
  split; [reflexivity |].
  destruct (idlist_as_served sample_get "q" 200 _ eq_refl (or_introl eq_refl))
    as [_ [_ [H _]]].
  apply (H [("count", JStr "3"); ("idlist", sample_idlist)]); reflexivity.
Defined.

(** C8 as stated fails: the resolver returns the twenty-one identifiers
    of a response that holds twenty-one. *)
Lemma idlist_counterexample :
  exists l,
    fetch_pubmed_ids long_get "q" = Ok (JList l) /\ length l = 21%nat /\ ~ (length l <= 20)%nat.
Proof.
  eexists. split; [reflexivity |]. split; [reflexivity |]. simpl. lia.
Qed.

(** C10.  Two runs that differ only in the debug flag print the same
    records, write the same files and exit with the same code; the flag
    sets the level of the logger, and the log without the flag is the
    log with the flag less its debug records. *)
Theorem debug_flag_only_logs (get : transport) (writable : string -> bool)
        (q : string) (f : option string) :
  let with_flag := run get writable (mkArguments q true f) in
  let without := run get writable (mkArguments q false f) in
  printed (fst with_flag) = printed (fst without) /\
  files (fst with_flag) = files (fst without) /\
  snd with_flag = snd without /\
  level (fst with_flag) = DEBUG /\
  level (fst without) = INFO /\
  logged (fst without) = filter (fun r => (INFO <=? fst r)%Z) (logged (fst with_flag)).
Proof.
  unfold run. rewrite !main_outcome. unfold outcome. simpl.
  destruct (fetch_pubmed_ids get q) as [ids|e]; [| simpl; intuition].
  destruct (fetch_paper_details get ids) as [ps|e]; [| simpl; intuition].
  destruct ps as [|p ps]; [simpl; intuition |].
  unfold file_given. simpl.
  destruct f as [name|]; [| simpl; intuition].
  destruct (String.eqb name ""); [simpl; intuition |].
  destruct (writable name); simpl; intuition.
Qed.

(** * Further properties *)

(** ** How the fetch functions fail *)

Lemma py_get_raises (v : json) (k : string) (default : json) (e : exn) :
  py_get v k default = Raise e -> fetch_error e.
Proof.
  destruct v; simpl; intros H; try discriminate; injection H as <-;
    unfold fetch_error; simpl; tauto.
Qed.

Lemma py_get_key_raises (v key default : json) (e : exn) :
  py_get_key v key default = Raise e -> fetch_error e.
Proof.
  destruct v; simpl; intros H; try discriminate;
    try (injection H as <-; unfold fetch_error; simpl; tauto).
  destruct key; try discriminate; injection H as <-; unfold fetch_error; simpl; tauto.
Qed.

Lemma py_iter_raises (v : json) (e : exn) : py_iter v = Raise e -> fetch_error e.
Proof.
  destruct v; simpl; intros H; try discriminate; injection H as <-;
    unfold fetch_error; simpl; tauto.
Qed.

Lemma strings_of_raises (items : list json) (e : exn) :
  strings_of items = Raise e -> e = TypeError.
Proof.
  induction items as [|v items IH]; simpl; [discriminate |].
  destruct v; try (intros H; now injection H as <-).
  destruct (strings_of items); simpl; [discriminate | exact IH].
Qed.

Lemma join_list_raises (sep : string) (items : list json) (e : exn) :
  join_list sep items = Raise e -> fetch_error e.
Proof.
  unfold join_list. destruct (strings_of items) eqn:E; simpl; [discriminate |].
  intros H. injection H as <-. apply strings_of_raises in E. subst.
  unfold fetch_error; simpl; tauto.
Qed.

Lemma re_search_raises (alts : list string) (v : json) (e : exn) :
  re_search alts v = Raise e -> fetch_error e.
Proof.
  destruct v; simpl; intros H; try discriminate; injection H as <-;
    unfold fetch_error; simpl; tauto.
Qed.

Lemma requests_get_raises (get : transport) (r : request) (e : exn) :
  requests_get get r = Raise e -> fetch_error e.
Proof.
  unfold requests_get. destruct (get r); [discriminate |].
  intros H. injection H as <-. unfold fetch_error; simpl; tauto.
Qed.

Lemma raise_for_status_raises (r : response) (e : exn) :
  raise_for_status r = Raise e -> fetch_error e.
Proof.
  unfold raise_for_status. destruct (_ && _); [| discriminate].
  intros H. injection H as <-. unfold fetch_error; simpl; tauto.
Qed.

Lemma response_json_raises (r : response) (e : exn) :
  response_json r = Raise e -> fetch_error e.
Proof.
  unfold response_json. destruct (body r); [discriminate |].
  intros H. injection H as <-. unfold fetch_error; simpl; tauto.
Qed.

#[local] Hint Resolve py_get_raises py_get_key_raises py_iter_raises join_list_raises
  re_search_raises requests_get_raises raise_for_status_raises response_json_raises
  : raises.

Lemma py_join_raises (sep : string) (v : json) (e : exn) :
  py_join sep v = Raise e -> fetch_error e.
Proof.
  unfold py_join. intros H. raise_cases H. eauto with raises.
Qed.

#[local] Hint Resolve py_join_raises : raises.

Lemma for_each_raises {S A : Type} (body : S -> A -> result S) (P : exn -> Prop) :
  (forall st x e, body st x = Raise e -> P e) ->
  forall items st e, for_each body st items = Raise e -> P e.
Proof.
  intros Hb items. induction items as [|x items IH]; intros st e; simpl.
  - discriminate.
  - destruct (body st x) as [st'|e'] eqn:E; simpl.
    + apply IH.
    + intros H. injection H as <-. now apply (Hb st x).
Qed.

Lemma author_step_raises (st : frame) (a : json) (e : exn) :
  author_step st a = Raise e -> fetch_error e.
Proof.
  unfold author_step. intros H. raise_cases H.
  destruct (is_none _) in H; discriminate.
Qed.

Lemma author_loop_raises (st : frame) (authors : list json) (e : exn) :
  for_each author_step st authors = Raise e -> fetch_error e.
Proof.
  apply for_each_raises. exact author_step_raises.
Qed.

#[local] Hint Resolve author_loop_raises : raises.

Lemma paper_step_raises (summaries : json) (st : frame) (pid : json) (e : exn) :
  paper_step summaries st pid = Raise e -> fetch_error e.
Proof.
  unfold paper_step. intros H. raise_cases H. discriminate.
Qed.

Lemma paper_loop_raises (summaries : json) (st : frame) (items : list json) (e : exn) :
  for_each (paper_step summaries) st items = Raise e -> fetch_error e.
Proof.
  apply for_each_raises. exact (paper_step_raises summaries).
Qed.

#[local] Hint Resolve paper_loop_raises : raises.

Lemma status_check (r : response) :
  raise_for_status r = if (400 <=? status_code r)%Z && (status_code r <? 600)%Z
                       then Raise HTTPError else Ok tt.
Proof. reflexivity. Qed.

Lemma error_status_test (code : Z) :
  ((400 <=? code)%Z && (code <? 600)%Z) = true <-> error_status code.
Proof.
  unfold error_status. rewrite andb_true_iff, Z.leb_le, Z.ltb_lt. tauto.
Qed.

Lemma no_error_status_test (code : Z) :
  ((400 <=? code)%Z && (code <? 600)%Z) = false <-> ~ error_status code.
Proof.
  rewrite <- error_status_test. destruct (_ && _); split; congruence.
Qed.




Lemma fetch_paper_details_raises (get : transport) (paper_ids : json) (e : exn) :
  fetch_paper_details get paper_ids = Raise e -> fetch_error e.
Proof.
  unfold fetch_paper_details. intros H. raise_cases H. discriminate.
Qed.


(** After the request: the part of [fetch_paper_details] that follows
    [ids = ",".join(paper_ids)], on a list of strings. *)
Lemma fetch_paper_details_cases (get : transport) (ids : list string) :
  fetch_paper_details get (JList (map JStr ids)) =
    match get (summary_request (String.concat "," ids)) with
    | None => Raise RequestException
    | Some r =>
        if (400 <=? status_code r)%Z && (status_code r <? 600)%Z then Raise HTTPError
        else match body r with
             | None => Raise JSONDecodeError
             | Some (JDict top) =>
                 st <- for_each (paper_step (dict_get top "result" (JDict [])))
                         (mkFrame [] [] []) (map JStr ids) ;;
                 Ok (papers st)
             | Some _ => Raise AttributeError
             end
    end.
Proof.
  unfold fetch_paper_details, py_join, join_list. simpl.
  rewrite strings_of_JStr. simpl. unfold requests_get, response_json.
  destruct (get _) as [r|]; simpl; [| reflexivity].
  rewrite status_check.
  destruct ((400 <=? status_code r)%Z && (status_code r <? 600)%Z); simpl; [reflexivity |].
  destruct (body r) as [v|]; simpl; [| reflexivity].
  destruct v; reflexivity.
Qed.



(** ** One bad entry fails the batch *)

Lemma for_each_stuck {S A : Type} (body : S -> A -> result S) (x : A) (items : list A) :
  (forall st, exists e, body st x = Raise e) ->
  In x items ->
  forall st, exists e, for_each body st items = Raise e.
Proof.
  intros Hx. induction items as [|y items IH]; simpl; [intros [] |].
  intros [-> | Hin] st.
  - destruct (Hx st) as [e E]. exists e. now rewrite E.
  - destruct (body st y) as [st'|e]; simpl; [now apply IH | now exists e].
Qed.

Lemma author_step_stuck (a : json) :
  (is_dict a = false \/
   exists d v, a = JDict d /\ lookup "affiliation" d = Some v /\ is_str v = false) ->
  forall st, exists e, author_step st a = Raise e.
Proof.
  intros [Hd | [d [v [-> [Hl Hv]]]]] st.
  - exists AttributeError. now destruct a.
  - exists TypeError. unfold author_step, py_get, dict_get, bind. rewrite Hl.
    destruct v; try discriminate; reflexivity.
Qed.

Lemma paper_step_stuck (res : list (string * json)) (pid : string) :
  (exists v, lookup pid res = Some v /\ is_dict v = false) \/
  (exists d l a,
     lookup pid res = Some (JDict d) /\ lookup "authors" d = Some (JList l) /\ In a l /\
     (is_dict a = false \/
      exists ad v, a = JDict ad /\ lookup "affiliation" ad = Some v /\ is_str v = false)) ->
  forall st, exists e, paper_step (JDict res) st (JStr pid) = Raise e.
Proof.
  intros [[v [Hl Hd]] | [d [l [a [Hl [Ha [Hin Hbad]]]]]]] st.
  - exists AttributeError. unfold paper_step, py_get_key, dict_get, bind. rewrite Hl.
    destruct v; try discriminate; reflexivity.
  - unfold paper_step, py_get_key, py_get, py_iter, dict_get, bind at 1 2 3 4 5 6.
    rewrite Hl, Ha.
    destruct (for_each_stuck author_step a l (author_step_stuck a Hbad) Hin
                (mkFrame (papers st) [] [])) as [e E].
    exists e. now rewrite E.
Qed.

(** X3.  There are no partial results.  When the [result] object holds,
    for one of the requested identifiers, an entry that is not an object,
    or a summary with an author that is not an object or whose
    affiliation is present and not a string (null, say), the call raises
    and returns no record at all, whatever the other entries are. *)
Theorem bad_entry_fails_batch (get : transport) (ids : list string) (code : Z)
        (top res : list (string * json)) (pid : string) :
  get (summary_request (String.concat "," ids)) = Some (mkResponse code (Some (JDict top))) ->
  ~ error_status code ->
  dict_get top "result" (JDict []) = JDict res ->
  In pid ids ->
  ((exists v, lookup pid res = Some v /\ is_dict v = false) \/
   (exists d l a,
      lookup pid res = Some (JDict d) /\ lookup "authors" d = Some (JList l) /\ In a l /\
      (is_dict a = false \/
       exists ad v, a = JDict ad /\ lookup "affiliation" ad = Some v /\ is_str v = false))) ->
  exists e, fetch_paper_details get (JList (map JStr ids)) = Raise e /\ fetch_error e.
Proof.
  intros Hget Hs Hres Hin Hbad.
  assert (E : exists e, fetch_paper_details get (JList (map JStr ids)) = Raise e).
  { rewrite fetch_paper_details_cases, Hget. simpl.
    apply no_error_status_test in Hs. rewrite Hs, Hres.
    destruct (for_each_stuck (paper_step (JDict res)) (JStr pid) (map JStr ids)
                (paper_step_stuck res pid Hbad) (in_map JStr ids pid Hin)
                (mkFrame [] [] [])) as [e E].
    exists e. now rewrite E. }
  destruct E as [e E]. exists e. split; [exact E |].
  now apply fetch_paper_details_raises with get (JList (map JStr ids)).
Qed.

Lemma bad_entry_fails_batch_witness :
  In "2" ["1"; "2"] /\
  exists e, fetch_paper_details null_affiliation_get (JList (map JStr ["1"; "2"])) = Raise e /\
            fetch_error e.
Proof.
  split; [right; left; reflexivity |].
  apply (bad_entry_fails_batch null_affiliation_get ["1"; "2"] 200
           [("result", JDict null_affiliation_result)] null_affiliation_result "2").
  - reflexivity.
  - unfold error_status. lia.
  - reflexivity.
  - right; left; reflexivity.
  - right.
    exists [("authors",
             JList [JDict [("name", JStr "A. Smith"); ("affiliation", JStr "MIT University")];
                    JDict [("name", JStr "J. Doe"); ("affiliation", JNull)]])],
      [JDict [("name", JStr "A. Smith"); ("affiliation", JStr "MIT University")];
       JDict [("name", JStr "J. Doe"); ("affiliation", JNull)]],
      (JDict [("name", JStr "J. Doe"); ("affiliation", JNull)]).
    split; [reflexivity |]. split; [reflexivity |]. split; [right; left; reflexivity |].
    right. exists [("name", JStr "J. Doe"); ("affiliation", JNull)], JNull.
    split; [reflexivity |]. split; reflexivity.
Defined.

(** ** The shape of every record *)

Lemma or_None_shape (s : string) :
  or_None s = JNull \/ (or_None s = JStr s /\ s <> "").
Proof.
  rewrite or_None_cases. destruct (String.eqb_spec s ""); [now left | now right].
Qed.

Lemma py_or_shape (v : json) : py_or v JNull = JNull \/ truthy (py_or v JNull) = true.
Proof.
  unfold py_or. destruct (truthy v) eqn:E; [now right | now left].
Qed.

Lemma paper_step_shape (summaries : json) (st st' : frame) (pid : json) :
  paper_step summaries st pid = Ok st' ->
  exists title pubdate names affiliations email,
    papers st' =
      papers st ++
        [[("PubmedID", pid);
          ("Title", title);
          ("Publication Date", pubdate);
          ("Non-academic Author(s)", or_None names);
          ("Company Affiliation(s)", or_None affiliations);
          ("Corresponding Author Email", py_or email JNull)]].
Proof.
  unfold paper_step. intros H. repeat bind_inv H.
  injection H as <-. simpl.
  match goal with E : for_each author_step _ _ = Ok _ |- _ =>
    apply for_each_author_step_papers in E; simpl in E; rewrite E end.
  now do 5 eexists.
Qed.

Lemma for_each_paper_step_shape (summaries : json) (items : list json) (st st' : frame) :
  for_each (paper_step summaries) st items = Ok st' ->
  exists ps,
    papers st' = papers st ++ ps /\
    Forall (fun p =>
              exists pid title pubdate names affiliations email,
                p = [("PubmedID", pid);
                     ("Title", title);
                     ("Publication Date", pubdate);
                     ("Non-academic Author(s)", or_None names);
                     ("Company Affiliation(s)", or_None affiliations);
                     ("Corresponding Author Email", py_or email JNull)]) ps.
Proof.
  revert st; induction items as [|pid items IH]; intros st; simpl.
  - intros H. injection H as <-. exists []. rewrite app_nil_r. now split.
  - intros H. bind_inv H.
    destruct (paper_step_shape _ _ _ _ E) as [v1 [v2 [v3 [v4 [v5 Ep]]]]].
    destruct (IH _ H) as [ps [Eps Hps]].
    eexists (_ :: ps). rewrite Eps, Ep, <- app_assoc. simpl.
    split; [reflexivity |]. constructor; [| exact Hps]. now exists pid, v1, v2, v3, v4, v5.
Qed.

(** X4.  Whatever the response, every record of a returned list has the
    six keys in their fixed order, and none of the three fields built
    with [or None] holds a false value: the two author fields are null
    or a non-empty string, never the empty string; the e-mail field is
    null or a value that is true, never the empty string, 0, false, an
    empty list or an empty object. *)
Theorem record_shape (get : transport) (paper_ids : json) (papers : list Paper) :
  fetch_paper_details get paper_ids = Ok papers ->
  forall p, In p papers ->
    map fst p =
      ["PubmedID"; "Title"; "Publication Date"; "Non-academic Author(s)";
       "Company Affiliation(s)"; "Corresponding Author Email"] /\
    (forall k, k = "Non-academic Author(s)" \/ k = "Company Affiliation(s)" ->
       lookup k p = Some JNull \/ exists s, lookup k p = Some (JStr s) /\ s <> "") /\
    (exists v, lookup "Corresponding Author Email" p = Some v /\
               (v = JNull \/ truthy v = true)).
Proof.
  unfold fetch_paper_details. intros H. repeat bind_inv H. injection H as <-.
  match goal with E : for_each (paper_step _) _ _ = Ok _ |- _ =>
    destruct (for_each_paper_step_shape _ _ _ _ E) as [ps [Eps Hps]] end.
  simpl in Eps. rewrite Eps. intros p Hin.
  rewrite Forall_forall in Hps.
  destruct (Hps p Hin) as [pid [v1 [v2 [v3 [v4 [v5 ->]]]]]].
  split; [reflexivity |]. split.
  - intros k [-> | ->]; simpl.
    + destruct (or_None_shape v3) as [-> | [-> Hn]]; [now left | right; now exists v3].
    + destruct (or_None_shape v4) as [-> | [-> Ha]]; [now left | right; now exists v4].
  - eexists. split; [reflexivity |]. apply py_or_shape.
Qed.

Lemma record_shape_witness :
  fetch_paper_details sample_get sample_idlist =
    Ok (map (record_of sample_result) ["1"; "2"; "3"]) /\
  map fst (record_of sample_result "2") =
    ["PubmedID"; "Title"; "Publication Date"; "Non-academic Author(s)";
     "Company Affiliation(s)"; "Corresponding Author Email"].
Proof.
  split; [reflexivity |].
  apply (record_shape sample_get sample_idlist
           (map (record_of sample_result) ["1"; "2"; "3"]) eq_refl).
  right; left; reflexivity.
Defined.

(** X5.  The title and the publication date of a record are the values
    of [title] and [pubdate] in the summary, as they are, and null when
    the summary has none.  Unlike the e-mail field they are not replaced
    by null when empty: an empty title stays the empty string. *)
Theorem title_and_date_verbatim (get : transport) (ids : list string)
        (res : list (string * json)) :
  serves get ids res ->
  exists papers,
    fetch_paper_details get (JList (map JStr ids)) = Ok papers /\
    forall i pid, nth_error ids i = Some pid ->
      exists p,
        nth_error papers i = Some p /\
        lookup "Title" p =
          Some (match lookup "title" (summary_of res pid) with
                | Some v => v
                | None => JNull
                end) /\
        lookup "Publication Date" p =
          Some (match lookup "pubdate" (summary_of res pid) with
                | Some v => v
                | None => JNull
                end).
Proof.
  intros H. exists (map (record_of res) ids).
  split; [now apply fetch_paper_details_records |].
  intros i pid Hi. exists (record_of res pid).
  split; [now apply map_nth_error |]. split; reflexivity.
Qed.

Lemma title_and_date_verbatim_witness :
  serves null_affiliation_get ["1"] null_affiliation_result /\
  exists papers,
    fetch_paper_details null_affiliation_get (JList (map JStr ["1"])) = Ok papers /\
    exists p, nth_error papers 0 = Some p /\
      lookup "Title" p = Some (JStr "") /\
      lookup "Publication Date" p = Some (JStr "2021 Mar").
Proof.
  assert (S : serves null_affiliation_get ["1"] null_affiliation_result).
  { exists 200%Z, [("result", JDict null_affiliation_result)]. repeat split; reflexivity. }
  split; [exact S |].
  destruct (title_and_date_verbatim null_affiliation_get ["1"] null_affiliation_result S)
    as [papers [E H]].
  exists papers. split; [exact E |].
  destruct (H 0%nat "1" eq_refl) as [p [Hp [Ht Hd]]].
  exists p. split; [exact Hp |]. split; [exact Ht | exact Hd].
Defined.

(** ** The keyword test *)




(** ** The sink on arbitrary records *)







(** X7.  The sink on the empty list.  The file is opened before
    [papers[0]] is looked at: when the name can be opened, the call
    raises [IndexError] and leaves the file behind, created or
    truncated, with no row, not even a header; what the file held
    before is lost, and the log, the output and the other files are
    untouched. *)
Theorem save_to_csv_edges (writable : string -> bool) (f : string) (p : process) :
  writable f = true ->
  save_to_csv writable [] f p =
    (mkProcess (level p) (logged p) (printed p)
       ((f, []) :: filter (fun g => negb (String.eqb (fst g) f)) (files p)),
     Raised IndexError).
Proof.
  intros Hw. unfold save_to_csv, io_bind at 1, open_w. rewrite Hw. reflexivity.
Qed.

Lemma save_to_csv_edges_witness :
  save_to_csv (fun _ => true) [] "out.csv"
    (mkProcess INFO [] [] [("out.csv", [[JStr "old"]]); ("other.csv", [])]) =
    (mkProcess INFO [] [] [("out.csv", []); ("other.csv", [])], Raised IndexError).
Proof.
  exact (save_to_csv_edges (fun _ => true) "out.csv"
           (mkProcess INFO [] [] [("out.csv", [[JStr "old"]]); ("other.csv", [])]) eq_refl).
Defined.





(** ** More on the runs of the program *)



(** X11.  Without a file name, and likewise with the empty file name,
    the run does not touch the file system: it is the same run whatever
    can be opened, the empty name is treated as no name, and no file is
    opened. *)
Theorem console_mode (get : transport) (writable writable' : string -> bool)
        (q : string) (d : bool) (f : option string) :
  f = None \/ f = Some "" ->
  run get writable (mkArguments q d f) = run get writable' (mkArguments q d None) /\
  files (fst (run get writable (mkArguments q d f))) = [] /\
  forall name, ~ In (INFO, SavingResults name)
                  (logged (fst (run get writable (mkArguments q d f)))).
Proof.
  intros Hf.
  assert (G : file_given (mkArguments q d f) = None).
  { destruct Hf as [-> | ->]; reflexivity. }
  unfold run. rewrite !main_outcome. unfold outcome. rewrite G. simpl.
  destruct (fetch_pubmed_ids get q) as [ids|e].
  - destruct (fetch_paper_details get ids) as [ps|e] eqn:Eps.
    + destruct ps as [|first rest]; simpl;
        (split; [reflexivity |]; split; [reflexivity |];
         intros name He; destruct d; simpl in He;
         repeat (destruct He as [He | He]; [discriminate He |]); exact He).
    + simpl. split; [reflexivity |]. split; [reflexivity |].
      intros name He. destruct d; simpl in He;
        repeat (destruct He as [He | He]; [discriminate He |]); exact He.
  - simpl. split; [reflexivity |]. split; [reflexivity |].
    intros name He. repeat (destruct He as [He | He]; [discriminate He |]). exact He.
Qed.

Lemma console_mode_witness :
  run sample_get (fun _ => false) (mkArguments "q" false (Some "")) =
    run sample_get (fun _ => true) (mkArguments "q" false None) /\
  files (fst (run sample_get (fun _ => false) (mkArguments "q" false (Some "")))) = [].
Proof.
  destruct (console_mode sample_get (fun _ => false) (fun _ => true) "q" false (Some "")
              (or_intror eq_refl)) as [H1 [H2 _]].
  split; [exact H1 | exact H2].
Defined.

(** X12.  The one summary request carries every identifier: on a list
    of strings, [fetch_paper_details] depends on the transport through
    the single request whose [id] parameter is the identifiers joined by
    commas, however many there are. *)
Theorem single_batched_request (get get' : transport) (ids : list string) :
  get (summary_request (String.concat "," ids)) =
    get' (summary_request (String.concat "," ids)) ->
  params (summary_request (String.concat "," ids)) =
    [("db", PStr "pubmed"); ("id", PStr (String.concat "," ids)); ("retmode", PStr "json")] /\
  fetch_paper_details get (JList (map JStr ids)) =
    fetch_paper_details get' (JList (map JStr ids)).
Proof.
  intros E. split; [reflexivity |]. rewrite !fetch_paper_details_cases. now rewrite E.
Qed.

Lemma single_batched_request_witness :
  sample_get (summary_request (String.concat "," ["1"; "2"; "3"])) =
    summary_only_get (summary_request (String.concat "," ["1"; "2"; "3"])) /\
  fetch_paper_details sample_get (JList (map JStr ["1"; "2"; "3"])) =
    fetch_paper_details summary_only_get (JList (map JStr ["1"; "2"; "3"])).
Proof.
  split; [reflexivity |].
  apply (single_batched_request sample_get summary_only_get ["1"; "2"; "3"]). reflexivity.
Defined.

(** X13.  The log tells how far a run got.  The first record is always
    the one that announces the search.  The record that announces the
    detail fetch is there exactly when the resolver returned; the
    warning, exactly when the detail fetch returned the empty list; the
    record that names the file, exactly when a non-empty file name was
    given and the detail fetch returned at least one record; the debug
    record with the identifiers, exactly when the flag is set and the
    resolver returned them. *)
Theorem log_tells_progress (get : transport) (writable : string -> bool)
        (args : arguments) :
  let p := fst (run get writable args) in
  hd_error (logged p) = Some (INFO, FetchingIds (query args)) /\
  (In (INFO, FetchingDetails) (logged p) <->
     exists ids, fetch_pubmed_ids get (query args) = Ok ids) /\
  (In (WARNING, NoPapersFound) (logged p) <->
     exists ids, fetch_pubmed_ids get (query args) = Ok ids /\
                 fetch_paper_details get ids = Ok []) /\
  (forall f, In (INFO, SavingResults f) (logged p) <->
     file_given args = Some f /\
     exists ids first rest,
       fetch_pubmed_ids get (query args) = Ok ids /\
       fetch_paper_details get ids = Ok (first :: rest)) /\
  (forall ids, In (DEBUG, FoundIds ids) (logged p) <->
     debug args = true /\ fetch_pubmed_ids get (query args) = Ok ids).
Proof.
  unfold run. rewrite main_outcome. unfold outcome.
  destruct (fetch_pubmed_ids get (query args)) as [ids|e] eqn:Eids.
  - destruct (fetch_paper_details get ids) as [ps|e] eqn:Eps.
    + destruct ps as [|first rest].
      * cbn [fst logged]. destruct (debug args); log_cases.
      * destruct (file_given args) as [f|].
        -- destruct (writable f); cbn [fst logged]; destruct (debug args); log_cases.
        -- cbn [fst logged]. destruct (debug args); log_cases.
    + cbn [fst logged]. destruct (debug args); log_cases.
  - cbn [fst logged]. log_cases.
Qed.
